(** * Settings routes of lute ([lute/settings/routes.py])

    A shallow embedding of the settings blueprint: the form validator
    [validate_backup_dir], and the routes [edit_settings], [test_parse],
    [set_key_value] and [set_parser].  The routes run in a small
    state-and-exception monad over the part of the process they touch:
    the settings table seen through the database session, the parser
    registry with its heap of parser objects, and a log of the calls made
    to the collaborators.

    What the routes import from the rest of lute is not part of this file's
    source: the settings model, the database session and the parser
    registry follow the specification, and the parser family, the
    operating system and the failures of the store are parameters of a
    [Platform], over which every statement is quantified. *)

From Stdlib Require Import String Ascii List ZArith Bool Lia.
From stdpp Require Import base option list gmap strings.

Import ListNotations.
Local Open Scope string_scope.

(** ** Python values and exceptions *)

(** The values a setting or a form field holds. *)
Inductive pyval : Type :=
| VNone
| VBool (b : bool)
| VInt (z : Z)
| VStr (s : string).

#[global] Instance pyval_eq_dec : EqDecision pyval.
Proof. solve_decision. Defined.

(** An instance of a subclass of [Exception]: [type(e).__name__] and
    [str(e)]. *)
Record Exn : Type := mkExn { exn_name : string; exn_str : string }.

#[global] Instance Exn_eq_dec : EqDecision Exn.
Proof. solve_decision. Defined.

(** Python truthiness of a value ([bool(v)]). *)
Definition truthy (v : pyval) : bool :=
  match v with
  | VNone => false
  | VBool b => b
  | VInt z => negb (z =? 0)%Z
  | VStr s => negb (String.eqb s "")
  end.

(** [a or b]. *)
Definition py_or (a b : pyval) : pyval := if truthy a then a else b.

(** ** Strings *)

(** A Python [str] is held as the bytes of its UTF-8 encoding. *)

(** [sep.join(parts)]. *)
Fixpoint join (sep : string) (parts : list string) : string :=
  match parts with
  | [] => ""
  | [p] => p
  | p :: rest => p ++ sep ++ join sep rest
  end.

(** The double quote character. *)
Definition dquote : string := String (ascii_of_nat 34) EmptyString.

Definition pilcrow : string := "¶".
Definition test_src : string := "私は元気です".

(** Code points for which [str.isspace] holds; [str.strip()] removes them
    from both ends. *)
Definition whitespace_codepoints : list N :=
  [9; 10; 11; 12; 13; 28; 29; 30; 31; 32; 133; 160; 5760;
   8192; 8193; 8194; 8195; 8196; 8197; 8198; 8199; 8200; 8201; 8202;
   8232; 8233; 8239; 8287; 12288]%N.

(** UTF-8 encoding of a code point below U+10000. *)
Definition utf8_encode (c : N) : list ascii :=
  (if c <? 128 then [ascii_of_N c]
   else if c <? 2048 then
     [ascii_of_N (192 + c / 64); ascii_of_N (128 + c mod 64)]
   else
     [ascii_of_N (224 + c / 4096); ascii_of_N (128 + (c / 64) mod 64);
      ascii_of_N (128 + c mod 64)])%N.

Definition whitespace_utf8 : list (list ascii) :=
  map utf8_encode whitespace_codepoints.

(** [strip_prefix p bs] is what follows [p] in [bs], when [bs] starts
    with [p]. *)
Fixpoint strip_prefix (p bs : list ascii) : option (list ascii) :=
  match p, bs with
  | [], _ => Some bs
  | a :: p', b :: bs' => if Ascii.eqb a b then strip_prefix p' bs' else None
  | _ :: _, [] => None
  end.

(** Removes one leading element of [table] from [bs], if there is one. *)
Fixpoint drop_one (table : list (list ascii)) (bs : list ascii)
  : option (list ascii) :=
  match table with
  | [] => None
  | p :: table' =>
      match strip_prefix p bs with
      | Some rest => Some rest
      | None => drop_one table' bs
      end
  end.

Fixpoint drop_all (fuel : nat) (table : list (list ascii)) (bs : list ascii)
  : list ascii :=
  match fuel with
  | O => bs
  | S fuel' =>
      match drop_one table bs with
      | Some rest => drop_all fuel' table rest
      | None => bs
      end
  end.

Definition lstrip_bytes (bs : list ascii) : list ascii :=
  drop_all (length bs) whitespace_utf8 bs.

Definition rstrip_bytes (bs : list ascii) : list ascii :=
  rev (drop_all (length bs) (map (@rev ascii) whitespace_utf8) (rev bs)).

(** [s.strip()]. *)
Definition py_strip (s : string) : string :=
  string_of_list_ascii (rstrip_bytes (lstrip_bytes (list_ascii_of_string s))).

(** ** The process state the routes act on *)

(** A token of a parse: its text and the flag that marks a synthetic
    boundary such as the end of a paragraph. *)
Record ParsedToken : Type :=
  mkToken { token : string; is_end_of_sentence : bool }.

(** A constructed parser object: the tool path it was built with, the
    dictionary it tags with, and the handle of its tagging engine. *)
Record ParserInstance : Type :=
  mkParser { parser_path : pyval; unidic_type : string; tagger : nat }.

#[global] Instance ParserInstance_eq_dec : EqDecision ParserInstance.
Proof. solve_decision. Defined.

(** The dummy [Language()] a parse is given. *)
Inductive Language : Type := Language_new.

(** The calls the routes make to their collaborators, in order. *)
Inductive Call : Type :=
| CSetValue (key : string) (value : pyval)
| CCommit
| CNewParser (name : string)
| CSwitchTagger (instance : nat) (variant : string)
| CFlash (message category : string).

#[global] Instance Call_eq_dec : EqDecision Call.
Proof. solve_decision. Defined.

Record World : Type := mkWorld {
  (** the settings table as the database session sees it *)
  settings : gmap string pyval;
  (** the settings table as of the last [db.session.commit()] *)
  committed : gmap string pyval;
  (** [lute.parse.registry.parser_instances]: name to object, or [None] *)
  parser_instances : gmap string (option nat);
  (** the parser objects, by address *)
  heap : list ParserInstance;
  (** calls made so far, oldest first *)
  calls : list Call
}.

Definition with_settings (s : gmap string pyval) (w : World) : World :=
  mkWorld s (committed w) (parser_instances w) (heap w) (calls w).
Definition with_committed (c : gmap string pyval) (w : World) : World :=
  mkWorld (settings w) c (parser_instances w) (heap w) (calls w).
Definition with_parser_instances (r : gmap string (option nat)) (w : World)
  : World :=
  mkWorld (settings w) (committed w) r (heap w) (calls w).
Definition with_heap (h : list ParserInstance) (w : World) : World :=
  mkWorld (settings w) (committed w) (parser_instances w) h (calls w).
Definition log (c : Call) (w : World) : World :=
  mkWorld (settings w) (committed w) (parser_instances w) (heap w)
          (calls w ++ [c]).

(** ** A monad for state and exceptions *)

Inductive Outcome (A : Type) : Type :=
| Ret (a : A)
| Raise (e : Exn).
Arguments Ret {A} a.
Arguments Raise {A} e.

Definition M (A : Type) : Type := World -> Outcome A * World.

Definition ret {A} (a : A) : M A := fun w => (Ret a, w).
Definition raise {A} (e : Exn) : M A := fun w => (Raise e, w).
Definition bind {A B} (m : M A) (k : A -> M B) : M B :=
  fun w =>
    match m w with
    | (Ret a, w') => k a w'
    | (Raise e, w') => (Raise e, w')
    end.

#[global] Instance M_ret : MRet M := @ret.
#[global] Instance M_bind : MBind M := fun A B k m => bind m k.

(** [try: body except Exception as e: handler e]. *)
Definition try_except {A} (body : M A) (handler : Exn -> M A) : M A :=
  fun w =>
    match body w with
    | (Ret a, w') => (Ret a, w')
    | (Raise e, w') => handler e w'
    end.

(** [try: body finally: fin]: [fin] runs on every exit of [body]; an
    exception raised by [fin] replaces the outcome of [body]. *)
Definition try_finally {A} (body : M A) (fin : M unit) : M A :=
  fun w =>
    let (r, w') := body w in
    match fin w' with
    | (Ret _, w'') => (r, w'')
    | (Raise e, w'') => (Raise e, w'')
    end.

(** Lifts a computation that only reads the world. *)
Definition lift_read {A} (f : World -> Exn + A) : M A :=
  fun w => match f w with inl e => (Raise e, w) | inr a => (Ret a, w) end.

(** ** What the routes call and this file does not hold *)

(** The operating system, the parser family and the fallible parts of the
    settings store.  The routes are verified for every such platform. *)
Class Platform : Type := {
  (** the registered default of a settings key *)
  default_of : string -> pyval;
  (** the exception with which the store refuses a write, if it does *)
  set_value_error : string -> pyval -> option Exn;
  (** whether a refused write has nonetheless staged its value *)
  set_value_staged_on_error : string -> pyval -> bool;
  (** the constructor of the parser family of a name, which reads the
      settings *)
  new_parser : string -> gmap string pyval -> Exn + ParserInstance;
  (** [p.get_parsed_tokens(text, lang)] *)
  get_parsed_tokens :
    ParserInstance -> gmap string pyval -> string -> Language ->
    Exn + list ParsedToken;
  (** [p.switch_tagger(variant)]: the object after the switch *)
  switch_tagger : ParserInstance -> string -> Exn + ParserInstance;
  (** [os.path.abspath], [os.path.exists], [os.path.isdir] *)
  os_path_abspath : string -> string;
  os_path_exists : string -> bool;
  os_path_isdir : string -> bool;
  (** [int(s)] for a [str] *)
  int_of_str : string -> Exn + Z
}.

Section Routes.
Context `{P : Platform}.

(** Modelled from the spec: [UserSetting.get_value] of lute.models.setting,
    the store's [get(key)], which returns the stored value of the key or
    its registered default when none is stored. *)
Definition get_setting (s : gmap string pyval) (key : string) : pyval :=
  default (default_of key) (s !! key).

Definition UserSetting_get_value (key : string) : M pyval :=
  fun w => (Ret (get_setting (settings w) key), w).

(** Modelled from the spec: [UserSetting.set_value] of lute.models.setting,
    the store's [set(key, value)]: the value overwrites any prior one and
    is visible to the next [get]; nothing is committed.  The routes catch
    exceptions of this call, so it may raise: the platform says when, and
    whether the value was staged before the exception. *)
Definition UserSetting_set_value (key : string) (value : pyval) : M unit :=
  fun w =>
    let w1 := log (CSetValue key value) w in
    let written := with_settings (<[key := value]> (settings w1)) w1 in
    match set_value_error key value with
    | None => (Ret tt, written)
    | Some e =>
        (Raise e, if set_value_staged_on_error key value then written else w1)
    end.

(** Modelled from the spec: [db.session.commit()], the flush of the
    persistence collaborator, which makes the staged writes durable.  The
    flush is taken to succeed. *)
Definition db_session_commit : M unit :=
  fun w =>
    let w1 := log CCommit w in
    (Ret tt, with_committed (settings w1) w1).

(** [JapaneseParser()]: a fresh object, local to its caller. *)
Definition JapaneseParser_new : M ParserInstance :=
  fun w =>
    let w1 := log (CNewParser "japanese") w in
    match new_parser "japanese" (settings w1) with
    | inl e => (Raise e, w1)
    | inr p => (Ret p, w1)
    end.

Definition parser_get_parsed_tokens
    (p : ParserInstance) (text : string) (lang : Language)
  : M (list ParsedToken) :=
  lift_read (fun w => get_parsed_tokens p (settings w) text lang).

(** [parser_instances[name]]. *)
Definition parser_instances_getitem (name : string) : M (option nat) :=
  fun w =>
    match parser_instances w !! name with
    | Some entry => (Ret entry, w)
    | None => (Raise (mkExn "KeyError" ("'" ++ name ++ "'")), w)
    end.

(** Modelled from the spec: [get_parser] of lute.parse.registry, the
    registry's [getParser(name)]: the instance of the name, constructed
    from the current settings on the first request and kept in the
    registry; a failed construction leaves no entry. *)
Definition get_parser (name : string) : M nat :=
  fun w =>
    match parser_instances w !! name with
    | Some (Some l) => (Ret l, w)
    | _ =>
        let w1 := log (CNewParser name) w in
        match new_parser name (settings w1) with
        | inl e => (Raise e, w1)
        | inr p =>
            let l := length (heap w1) in
            (Ret l,
             with_parser_instances (<[name := Some l]> (parser_instances w1))
               (with_heap (heap w1 ++ [p]) w1))
        end
    end.

(** [obj.switch_tagger(variant)] on the object at address [l]: the object
    is updated where it is.  The addresses the registry holds are those of
    objects [get_parser] has put on the heap; the first case makes the
    function total. *)
Definition call_switch_tagger (l : nat) (variant : string) : M unit :=
  fun w =>
    let w1 := log (CSwitchTagger l variant) w in
    match heap w1 !! l with
    | None => (Raise (mkExn "ReferenceError" "no object at this address"), w1)
    | Some p =>
        match switch_tagger p variant with
        | inl e => (Raise e, w1)
        | inr p' => (Ret tt, with_heap (<[l := p']> (heap w1)) w1)
        end
    end.

(** ** The form *)

Inductive FieldKind : Type :=
| BooleanField | StringField | IntegerField | TextAreaField | SelectField
| CSRFTokenField.

#[global] Instance FieldKind_eq_dec : EqDecision FieldKind.
Proof. solve_decision. Defined.

Record Field : Type := mkField {
  id : string;
  kind : FieldKind;
  data : pyval;
  render_kw : list (string * pyval)
}.

(** The fields of [UserSettingsForm] in the order of their declaration;
    the form adds its CSRF token after them. *)
Definition UserSettingsForm_fields : list (string * FieldKind) :=
  [ ("backup_enabled", BooleanField);
    ("backup_dir", StringField);
    ("backup_auto", BooleanField);
    ("backup_warn", BooleanField);
    ("backup_count", IntegerField);
    ("current_theme", SelectField);
    ("custom_styles", TextAreaField);
    ("show_highlights", BooleanField);
    ("show_reading", BooleanField);
    ("open_popup_in_new_tab", BooleanField);
    ("stop_audio_on_term_form_open", BooleanField);
    ("mecab_path", StringField);
    ("japanese_reading", SelectField);
    ("unidic_types", SelectField);
    ("csrf_token", CSRFTokenField) ].

Definition declared_render_kw (name : string) : list (string * pyval) :=
  if String.eqb name "backup_count"
  then [("title",
         VStr "Count of zipfiles to retain, oldest files are deleted first")]
  else [].

(** [UserSettingsForm()]: each field bound to the data of the request. *)
Definition UserSettingsForm (formdata : string -> pyval) : list Field :=
  map (fun d => mkField (fst d) (snd d) (formdata (fst d))
                        (declared_render_kw (fst d)))
      UserSettingsForm_fields.

(** [form.<name>.data]. *)
Definition form_data (form : list Field) (name : string) : pyval :=
  match List.find (fun f => String.eqb (id f) name) form with
  | Some f => data f
  | None => VNone
  end.

Definition ValidationError (msg : string) : Exn := mkExn "ValidationError" msg.

(** [UserSettingsForm.validate_backup_dir(self, field)]. *)
Definition validate_backup_dir (self : list Field) (field : Field)
  : Outcome unit :=
  if decide (form_data self "backup_enabled" = VBool false) then Ret tt
  else
    let v := data field in
    match py_or v (VStr "") with
    | VStr s =>
        if String.eqb (py_strip s) "" then
          Raise (ValidationError "Backup directory required")
        else
          let abspath := os_path_abspath s in
          if negb (String.eqb s abspath) then
            Raise (ValidationError
                     ("Backup dir must be absolute path.  Did you mean "
                      ++ dquote ++ abspath ++ dquote ++ "?"))
          else if negb (os_path_exists s) then
            Raise (ValidationError
                     ("Directory " ++ dquote ++ s ++ dquote
                      ++ " does not exist."))
          else if negb (os_path_isdir s) then
            Raise (ValidationError
                     (dquote ++ s ++ dquote ++ " is not a directory."))
          else Ret tt
    | _ =>
        Raise (mkExn "AttributeError" "object has no attribute 'strip'")
    end.

(** ** The routes *)

Inductive Response : Type :=
| Json (body : list (string * string))
| Text (body : string)
| RedirectTo (location : string)
| Render (template : string) (form : list Field).

Definition jsonify (d : list (string * string)) : Response := Json d.

(** What [edit_settings] reads of the request and of the application. *)
Record Request : Type := mkRequest {
  (** the method is POST *)
  is_submitted : bool;
  (** the submitted data of each field *)
  formdata : string -> pyval;
  (** the CSRF check and the validators declared on the fields pass *)
  declared_validators_pass : bool;
  (** [current_app.env_config.is_docker] *)
  is_docker : bool
}.

(** [form.validate_on_submit()]: a submitted form on which the declared
    validators and the inline validator of [backup_dir] pass. *)
Definition validate_on_submit (req : Request) (form : list Field) : bool :=
  is_submitted req
  && declared_validators_pass req
  && forallb
       (fun f =>
          if String.eqb (id f) "backup_dir" then
            match validate_backup_dir form f with
            | Ret _ => true
            | Raise _ => false
            end
          else true)
       form.

(** [for x in xs: body x]. *)
Fixpoint for_each {A} (xs : list A) (body : A -> M unit) : M unit :=
  match xs with
  | [] => mret tt
  | x :: xs' => body x ;; for_each xs' body
  end.

(** A loop whose body assigns to attributes of its element. *)
Fixpoint for_each_update {A} (xs : list A) (body : A -> M A) : M (list A) :=
  match xs with
  | [] => mret []
  | x :: xs' => x' ← body x; rest ← for_each_update xs' body; mret (x' :: rest)
  end.

(** [int(v)]. *)
Definition py_int (v : pyval) : Outcome Z :=
  match v with
  | VNone => Raise (mkExn "TypeError" "int() argument must be a string, a bytes-like object or a real number, not 'NoneType'")
  | VBool b => Ret (if b then 1 else 0)%Z
  | VInt z => Ret z
  | VStr s => match int_of_str s with inl e => Raise e | inr z => Ret z end
  end.

Definition set_render_kw (kw : list (string * pyval)) (f : Field) : Field :=
  mkField (id f) (kind f) (data f) kw.
Definition set_data (v : pyval) (f : Field) : Field :=
  mkField (id f) (kind f) v (render_kw f).

(** [flash(message, category)]: a message of the framework for the next
    page. *)
Definition flash (message category : string) : M unit :=
  fun w => (Ret tt, log (CFlash message category) w).

(** The form [edit_settings] works on: the bound form, with the backup
    directory made read-only under docker. *)
Definition edit_settings_form (req : Request) : list Field :=
  let form := UserSettingsForm (formdata req) in
  if is_docker req then
    let kw := [("readonly", VBool true);
               ("style", VStr "background-color: LightGray")] in
    map (fun f => if String.eqb (id f) "backup_dir"
                  then set_render_kw kw f else f) form
  else form.

Definition edit_settings (req : Request) : M Response :=
  let form := edit_settings_form req in
  if validate_on_submit req form then
    for_each form (fun field =>
      if negb (String.eqb (id field) "csrf_token"
               || String.eqb (id field) "submit")
      then UserSetting_set_value (id field) (data field)
      else mret tt) ;;
    db_session_commit ;;
    flash "Settings updated" "success" ;;
    mret (RedirectTo "/")
  else
    form ← for_each_update form (fun field =>
      field ←
        (if negb (String.eqb (id field) "csrf_token")
         then v ← UserSetting_get_value (id field); mret (set_data v field)
         else mret field);
      if decide (kind field = BooleanField)
      then
        match py_int (py_or (data field) (VInt 0)) with
        | Ret z => mret (set_data (VInt z) field)
        | Raise e => raise e
        end
      else mret field);
    mret (Render "settings/form.html" form).

(** [test_parse], with the [mecab_path] argument of the query string
    ([None] when it is absent). *)
Definition test_parse (arg_mecab_path : option string) : M Response :=
  let mecab_path :=
    match arg_mecab_path with Some s => VStr s | None => VNone end in
  old_setting ← UserSetting_get_value "mecab_path";
  result ←
    try_finally
      (try_except
         (UserSetting_set_value "mecab_path" mecab_path ;;
          let lang := Language_new in
          p ← JapaneseParser_new;
          let src := test_src in
          toks ← parser_get_parsed_tokens p src lang;
          let toks :=
            map token (filter (fun tok => token tok ≠ pilcrow) toks) in
          let message := src ++ " parsed to [" ++ join ", " toks ++ "]" in
          mret [("result", "success"); ("message", message)])
         (fun e =>
            let message := exn_name e ++ ": " ++ exn_str e in
            mret [("result", "failure"); ("message", message)]))
      (UserSetting_set_value "mecab_path" old_setting);
  mret (jsonify result).

Definition set_key_value (key value : string) : M Response :=
  old_value ← UserSetting_get_value key;
  result ←
    try_except
      (UserSetting_set_value key (VStr value) ;;
       mret [("result", "success"); ("message", "OK")])
      (fun e =>
         let message := exn_name e ++ ": " ++ exn_str e in
         UserSetting_set_value key old_value ;;
         mret [("result", "failure"); ("message", message)]);
  db_session_commit ;;
  mret (jsonify result).

Definition set_parser (unidic_type : string) : M Response :=
  current ← UserSetting_get_value "unidic_types";
  if decide (VStr unidic_type = current) then mret (Text unidic_type)
  else
    entry ← parser_instances_getitem "japanese";
    (if decide (entry = None)
     then get_parser "japanese" ;; mret tt
     else mret tt) ;;
    entry ← parser_instances_getitem "japanese";
    match entry with
    | Some l => call_switch_tagger l unidic_type
    | None =>
        raise (mkExn "AttributeError"
                 "'NoneType' object has no attribute 'switch_tagger'")
    end ;;
    mret (Text unidic_type).

End Routes.

(** ** Notions the statements use *)

Section Notions.
Context `{P : Platform}.

(** [posixpath.isabs]. *)
Definition is_absolute (path : string) : bool := String.prefix "/" path.

(** The value [test_parse] writes for its query argument. *)
Definition candidate_value (arg_mecab_path : option string) : pyval :=
  match arg_mecab_path with Some s => VStr s | None => VNone end.

(** The token texts [test_parse] reports for a parse. *)
Definition reported_tokens (toks : list ParsedToken) : list string :=
  map token (filter (fun tok => token tok ≠ pilcrow) toks).

(** What the body of the [try] of [test_parse] comes to on a settings
    table: the tokens of the test parse made with the candidate path, or
    the exception of the write, of the constructor or of the parse. *)
Definition probe_outcome (mecab_path : pyval) (s : gmap string pyval)
  : Exn + list ParsedToken :=
  match set_value_error "mecab_path" mecab_path with
  | Some e => inl e
  | None =>
      let s' := <["mecab_path" := mecab_path]> s in
      match new_parser "japanese" s' with
      | inl e => inl e
      | inr p => get_parsed_tokens p s' test_src Language_new
      end
  end.

(** What [switch_tagger] leaves of an object: the switched object, or the
    object as it was when the switch raises. *)
Definition switched (p : ParserInstance) (variant : string) : ParserInstance :=
  match switch_tagger p variant with
  | inr p' => p'
  | inl _ => p
  end.

(** The calls a run added to the log. *)
Definition new_calls (before after : World) : list Call :=
  drop (length (calls before)) (calls after).

Definition commit_count (cs : list Call) : nat :=
  length (filter (fun c => c = CCommit) cs).

(** The writes the bulk path makes for a form: one per field that is
    neither the CSRF token nor a submit control, in the order of the form. *)
Definition form_writes (form : list Field) : list Call :=
  map (fun f => CSetValue (id f) (data f))
      (filter (fun f => id f ≠ "csrf_token" ∧ id f ≠ "submit") form).

(** The setting keys of the form: its fields but the CSRF token. *)
Definition settings_keys : list string :=
  filter (fun name => name ≠ "csrf_token") (map fst UserSettingsForm_fields).

(** The settings table after the writes of a list of fields, in order. *)
Definition apply_writes (form : list Field) (s : gmap string pyval)
  : gmap string pyval :=
  fold_left
    (fun acc f =>
       if decide (id f ≠ "csrf_token" ∧ id f ≠ "submit")
       then <[id f := data f]> acc else acc)
    form s.

End Notions.

(** ** A concrete platform, for examples *)

Module Demo.

Definition is_digit (a : ascii) : bool :=
  Nat.leb 48 (nat_of_ascii a) && Nat.leb (nat_of_ascii a) 57.

Definition all_digits (s : string) : bool :=
  negb (String.eqb s "") && forallb is_digit (list_ascii_of_string s).

(** The store refuses a count that is not a number. *)
Definition set_value_error (key : string) (value : pyval) : option Exn :=
  if String.eqb key "backup_count" then
    match value with
    | VInt _ => None
    | VStr s =>
        if all_digits s then None
        else Some (mkExn "ValueError" ("not a number: " ++ s))
    | _ => Some (mkExn "TypeError" "backup_count takes a number")
    end
  else None.

Definition default_of (key : string) : pyval :=
  if String.eqb key "backup_count" then VInt 5
  else if String.eqb key "unidic_types" then VStr "spoken"
  else VStr "".

Definition supported_variant (v : string) : bool :=
  String.eqb v "spoken" || String.eqb v "writing".

Definition new_parser (name : string) (s : gmap string pyval)
  : Exn + ParserInstance :=
  match default (VStr "") (s !! "mecab_path") with
  | VStr path =>
      if String.prefix "/usr/" path
      then inr (mkParser (VStr path) "spoken" 0)
      else inl (mkExn "ParserInitError" ("no mecab at " ++ path))
  | _ => inl (mkExn "ParserInitError" "no mecab path")
  end.

Definition get_parsed_tokens
    (p : ParserInstance) (s : gmap string pyval) (text : string)
    (lang : Language) : Exn + list ParsedToken :=
  inr [mkToken "私" false; mkToken "は" false; mkToken "元気" false;
       mkToken "です" false; mkToken "¶" true].

(** A switch to the variant the object already has changes nothing;
    another supported variant rebuilds the engine. *)
Definition switch_tagger (p : ParserInstance) (variant : string)
  : Exn + ParserInstance :=
  if String.eqb variant (unidic_type p) then inr p
  else if supported_variant variant
  then inr (mkParser (parser_path p) variant (S (tagger p)))
  else inl (mkExn "VariantSwitchError" variant).

Definition os_path_abspath (path : string) : string :=
  if String.prefix "/" path then path else "/lute/" ++ path.

Definition os_path_exists (path : string) : bool :=
  String.eqb path "/backups" || String.eqb path "/etc/hosts".

Definition os_path_isdir (path : string) : bool := String.eqb path "/backups".

Definition int_of_str (s : string) : Exn + Z :=
  if String.eqb s "0" then inr 0%Z
  else if String.eqb s "1" then inr 1%Z
  else inl (mkExn "ValueError" ("invalid literal for int(): " ++ s)).

Definition platform : Platform :=
  Build_Platform default_of set_value_error (fun _ _ => true) new_parser
    get_parsed_tokens switch_tagger os_path_abspath os_path_exists
    os_path_isdir int_of_str.

(** A process that has constructed no parser yet. *)
Definition world0 : World :=
  mkWorld (<["mecab_path" := VStr "/usr/bin/mecab"]>
             (<["unidic_types" := VStr "spoken"]> ∅))
          ∅
          (<["japanese" := None]> ∅)
          []
          [].

(** The process after one request to switch to the writing dictionary. *)
Definition world1 : World := snd (@set_parser platform "writing" world0).

(** A form with backups enabled and a given backup directory. *)
Definition form_with (enabled : bool) (dir : string) : list Field :=
  [mkField "backup_enabled" BooleanField (VBool enabled) [];
   mkField "backup_dir" StringField (VStr dir) []].

(** A submitted form that enables backups to an existing directory and
    keeps five of them. *)
Definition request : Request :=
  mkRequest true
    (fun name =>
       if String.eqb name "backup_enabled" then VBool true
       else if String.eqb name "backup_dir" then VStr "/backups"
       else if String.eqb name "backup_count" then VInt 5
       else VStr "")
    true false.

(** A store that knows no [mecab_path] key: it refuses every write of it. *)
Definition locked_set_value_error (key : string) (value : pyval) : option Exn :=
  if String.eqb key "mecab_path"
  then Some (mkExn "MissingUserSettingKeyException" "mecab_path")
  else set_value_error key value.

Definition locked_platform : Platform :=
  Build_Platform default_of locked_set_value_error (fun _ _ => false)
    new_parser get_parsed_tokens switch_tagger os_path_abspath os_path_exists
    os_path_isdir int_of_str.

(** A request for the page. *)
Definition page_request : Request :=
  mkRequest false (fun _ => VNone) true false.

(** A submitted form that enables backups to a relative directory. *)
Definition relative_request : Request :=
  mkRequest true
    (fun name =>
       if String.eqb name "backup_enabled" then VBool true
       else if String.eqb name "backup_dir" then VStr "backups"
       else if String.eqb name "backup_count" then VInt 5
       else VStr "")
    true false.

(** A submitted form with a count the store refuses. *)
Definition refused_request : Request :=
  mkRequest true
    (fun name =>
       if String.eqb name "backup_enabled" then VBool false
       else if String.eqb name "backup_count" then VStr "many"
       else VStr "")
    true false.

(** A process whose stored flags are booleans. *)
Definition world_flags : World :=
  mkWorld (<["backup_enabled" := VBool true]>
             (<["backup_auto" := VBool false]>
                (<["backup_warn" := VInt 1]>
                   (<["show_highlights" := VBool true]>
                      (<["show_reading" := VNone]>
                         (<["open_popup_in_new_tab" := VStr "0"]>
                            (<["stop_audio_on_term_form_open" := VBool false]>
                               (<["backup_dir" := VStr "/backups"]> ∅))))))))
          ∅ (<["japanese" := None]> ∅) [] [].

(** The same with a flag stored as a word. *)
Definition world_bad_flag : World :=
  with_settings (<["backup_auto" := VStr "yes"]> (settings world_flags))
                world_flags.

(** A process whose registry has no entry for the Japanese parser. *)
Definition world_no_entry : World :=
  mkWorld (settings world0) ∅ ∅ [] [].

(** A process whose settings name no usable mecab. *)
Definition world_no_mecab : World :=
  mkWorld (<["unidic_types" := VStr "spoken"]> ∅) ∅
          (<["japanese" := None]> ∅) [] [].

End Demo.

(** ** Further notions *)

Section FurtherNotions.
Context `{P : Platform}.

(** A request with another docker flag. *)
Definition with_docker (b : bool) (req : Request) : Request :=
  mkRequest (is_submitted req) (formdata req) (declared_validators_pass req) b.

(** Every address the registry holds is that of an object on the heap. *)
Definition registry_wf (w : World) : Prop :=
  forall name l,
    parser_instances w !! name = Some (Some l) -> l < length (heap w).

Definition is_set_value (c : Call) : bool :=
  match c with CSetValue _ _ => true | _ => false end.

Definition is_parser_call (c : Call) : bool :=
  match c with CNewParser _ | CSwitchTagger _ _ => true | _ => false end.

(** What the page of [edit_settings] shows for a field before the
    conversion of the boolean ones: the stored value of its key, the CSRF
    token keeping its own data. *)
Definition shown_value (s : gmap string pyval) (field : Field) : pyval :=
  if String.eqb (id field) "csrf_token" then data field
  else get_setting s (id field).

(** [field'] is [field] as the page shows it for the settings table [s]:
    the same field with the shown value as data, a boolean field with that
    value as an [int] (0 for a falsy one). *)
Definition shown_as (s : gmap string pyval) (field field' : Field) : Prop :=
  id field' = id field
  /\ kind field' = kind field
  /\ render_kw field' = render_kw field
  /\ (kind field <> BooleanField -> data field' = shown_value s field)
  /\ (kind field = BooleanField ->
      exists z, py_int (py_or (shown_value s field) (VInt 0)) = Ret z
                /\ data field' = VInt z).

(** The body of the loop of [edit_settings] that loads the page. *)
Definition load_field (field : Field) : M Field :=
  field ←
    (if negb (String.eqb (id field) "csrf_token")
     then v ← UserSetting_get_value (id field); mret (set_data v field)
     else mret field);
  if decide (kind field = BooleanField)
  then
    match py_int (py_or (data field) (VInt 0)) with
    | Ret z => mret (set_data (VInt z) field)
    | Raise e => raise e
    end
  else mret field.

(** The body of the loop of [edit_settings] that saves the form. *)
Definition save_field (field : Field) : M unit :=
  if negb (String.eqb (id field) "csrf_token"
           || String.eqb (id field) "submit")
  then UserSetting_set_value (id field) (data field)
  else mret tt.

(** [edit_settings], with its loop bodies named. *)
Definition edit_settings_unrolled (req : Request) : M Response :=
  let form := edit_settings_form req in
  if validate_on_submit req form then
    for_each form save_field ;;
    db_session_commit ;;
    flash "Settings updated" "success" ;;
    mret (RedirectTo "/")
  else
    form ← for_each_update form load_field;
    mret (Render "settings/form.html" form).

End FurtherNotions.

(** * Properties *)

(** ** The string functions on examples *)

Example py_strip_path : py_strip "  /var/backups " = "/var/backups".
Proof. reflexivity. Qed.

Example py_strip_inner_space : py_strip "my backups" = "my backups".
Proof. reflexivity. Qed.

(** A tab, an ideographic space and a space. *)
Example py_strip_blank :
  py_strip (String (ascii_of_nat 9) "　" ++ " ") = "".
Proof. reflexivity. Qed.

Example join_tokens : join ", " ["私"; "は"; "元気"] = "私, は, 元気".
Proof. reflexivity. Qed.

Example join_none : join ", " [] = "".
Proof. reflexivity. Qed.

Section Properties.
Context `{P : Platform}.

(** ** The settings store *)

Lemma get_setting_insert_eq (s : gmap string pyval) (key : string) (v : pyval) :
  get_setting (<[key := v]> s) key = v.
Proof. unfold get_setting. by rewrite lookup_insert_eq. Qed.

Lemma get_setting_insert_ne
    (s : gmap string pyval) (key key' : string) (v : pyval) :
  key ≠ key' -> get_setting (<[key := v]> s) key' = get_setting s key'.
Proof. intros Hne. unfold get_setting. by rewrite lookup_insert_ne. Qed.

(** Writing back what [get] returned leaves every [get] as it was. *)
Lemma get_setting_write_back (s : gmap string pyval) (key key' : string) :
  get_setting (<[key := get_setting s key]> s) key' = get_setting s key'.
Proof.
  destruct (decide (key = key')) as [->|Hne].
  - apply get_setting_insert_eq.
  - by apply get_setting_insert_ne.
Qed.

(** The same after an intermediate write to that key. *)
Lemma get_setting_restore
    (s : gmap string pyval) (key key' : string) (v : pyval) :
  get_setting (<[key := get_setting s key]> (<[key := v]> s)) key'
  = get_setting s key'.
Proof. rewrite insert_insert_eq. apply get_setting_write_back. Qed.

Lemma set_value_accepted (key : string) (value : pyval) (w : World) :
  set_value_error key value = None ->
  UserSetting_set_value key value w
  = (Ret tt,
     with_settings (<[key := value]> (settings w)) (log (CSetValue key value) w)).
Proof. intros H. unfold UserSetting_set_value. by rewrite H. Qed.

Lemma set_value_refused (key : string) (value : pyval) (w : World) (e : Exn) :
  set_value_error key value = Some e ->
  UserSetting_set_value key value w
  = (Raise e,
     if set_value_staged_on_error key value
     then with_settings (<[key := value]> (settings w))
                        (log (CSetValue key value) w)
     else log (CSetValue key value) w).
Proof. intros H. unfold UserSetting_set_value. by rewrite H. Qed.

(** Unfolds the monad and the read-only collaborators. *)
Ltac run :=
  unfold mbind, M_bind, bind, mret, M_ret, ret, raise, try_finally,
    try_except, UserSetting_get_value, db_session_commit,
    JapaneseParser_new, parser_get_parsed_tokens, lift_read, jsonify,
    flash in *;
  simpl in *.

(** Case analysis on the outcome of a collaborator. *)
Ltac case_sum :=
  match goal with
  | |- context [match ?x with inl _ => _ | inr _ => _ end] =>
      let H := fresh "Hcall" in destruct x eqn:H; simpl
  end.

(** C1. The test route leaves every setting as a [get] sees it: whatever
    the candidate path, and whether the test parse succeeds or raises, a
    [get] of any key after [test_parse] returns what it returned before.
    The route restores by writing the old value back; the statement is for
    a store that accepts that write. *)
Theorem test_parse_preserves_settings
    (arg_mecab_path : option string) (w : World) (key : string) :
  set_value_error "mecab_path" (get_setting (settings w) "mecab_path") = None ->
  get_setting (settings (snd (test_parse arg_mecab_path w))) key
  = get_setting (settings w) key.
Proof.
  intros Hback. unfold test_parse. run.
  set (v := match arg_mecab_path with Some s => VStr s | None => VNone end).
  unfold UserSetting_set_value at 1.
  destruct (set_value_error "mecab_path" v) as [e|] eqn:Hv; simpl.
  - destruct (set_value_staged_on_error "mecab_path" v); simpl;
      rewrite set_value_accepted by (simpl; exact Hback); simpl.
    + apply get_setting_restore.
    + apply get_setting_write_back.
  - repeat case_sum; rewrite set_value_accepted by (simpl; exact Hback);
      simpl; apply get_setting_restore.
Qed.

Lemma new_calls_app (w w' : World) (cs : list Call) :
  calls w' = (calls w ++ cs)%list -> new_calls w w' = cs.
Proof. intros H. unfold new_calls. rewrite H. apply drop_app_length. Qed.

(** C2. When the write of [set_key_value] raises, the route writes the
    value it read beforehand back, and answers with a failure whose message
    is the name of the exception's type, a colon and its description; every
    [get] then returns what it returned before the call.  The statement is
    for a store that accepts the write of the old value. *)
Theorem set_key_value_restores_on_failure
    (key value : string) (w : World) (e : Exn) :
  set_value_error key (VStr value) = Some e ->
  set_value_error key (get_setting (settings w) key) = None ->
  fst (set_key_value key value w)
  = Ret (Json [("result", "failure");
               ("message", exn_name e ++ ": " ++ exn_str e)])
  /\ new_calls w (snd (set_key_value key value w))
     = [CSetValue key (VStr value);
        CSetValue key (get_setting (settings w) key);
        CCommit]
  /\ forall key',
       get_setting (settings (snd (set_key_value key value w))) key'
       = get_setting (settings w) key'.
Proof.
  intros Hfail Hback. unfold set_key_value. run.
  rewrite (set_value_refused _ _ _ _ Hfail).
  destruct (set_value_staged_on_error key (VStr value)); simpl;
    rewrite set_value_accepted by (simpl; exact Hback); simpl;
    (split; [reflexivity | split]).
  - apply new_calls_app. simpl. by rewrite <- !app_assoc.
  - intros key'. apply get_setting_restore.
  - apply new_calls_app. simpl. by rewrite <- !app_assoc.
  - intros key'. apply get_setting_write_back.
Qed.

(** C3. When the store accepts the write, [set_key_value key value]
    answers success and a [get] of the key that follows it returns the
    value. *)
Theorem set_key_value_then_get (key value : string) (w : World) :
  set_value_error key (VStr value) = None ->
  fst (set_key_value key value w)
  = Ret (Json [("result", "success"); ("message", "OK")])
  /\ fst ((set_key_value key value ;; UserSetting_get_value key) w)
     = Ret (VStr value).
Proof.
  intros Hok. unfold set_key_value. run.
  rewrite (set_value_accepted _ _ _ Hok). simpl.
  split; [reflexivity |]. f_equal. apply get_setting_insert_eq.
Qed.

(** C4. [set_key_value] commits exactly once on each of its branches, as
    its last call: after the write on the success branch, and after the old
    value has been written back on the failure branch (the store accepting
    that write).  What is committed is the table the session then sees. *)
Theorem set_key_value_commits_once (key value : string) (w : World) :
  (set_value_error key (VStr value) <> None ->
   set_value_error key (get_setting (settings w) key) = None) ->
  let w' := snd (set_key_value key value w) in
  new_calls w w'
  = (match set_value_error key (VStr value) with
     | Some _ => [CSetValue key (VStr value);
                  CSetValue key (get_setting (settings w) key)]
     | None => [CSetValue key (VStr value)]
     end ++ [CCommit])%list
  /\ commit_count (new_calls w w') = 1
  /\ committed w' = settings w'.
Proof.
  intros Hback. cbv zeta. unfold set_key_value. run.
  destruct (set_value_error key (VStr value)) as [e|] eqn:Hv.
  - rewrite (set_value_refused _ _ _ _ Hv).
    assert (Hb : set_value_error key (get_setting (settings w) key) = None)
      by (apply Hback; discriminate).
    destruct (set_value_staged_on_error key (VStr value)); simpl;
      rewrite set_value_accepted by (simpl; exact Hb); simpl;
      (erewrite new_calls_app;
         [| simpl; rewrite <- !app_assoc; reflexivity]);
      repeat split.
  - rewrite (set_value_accepted _ _ _ Hv). simpl.
    erewrite new_calls_app; [| simpl; rewrite <- !app_assoc; reflexivity].
    repeat split.
Qed.

(** ** The test parse *)

Lemma reported_tokens_filter (toks : list ParsedToken) :
  reported_tokens toks = filter (fun t => t <> pilcrow) (map token toks).
Proof.
  unfold reported_tokens. induction toks as [|tok toks IH]; [reflexivity |].
  simpl. rewrite !filter_cons. destruct (decide (token tok <> pilcrow)).
  - simpl. by rewrite IH.
  - exact IH.
Qed.

(** The answer of [test_parse], from the outcome of its [try] body. *)
Lemma test_parse_answer (arg_mecab_path : option string) (w : World) :
  set_value_error "mecab_path" (get_setting (settings w) "mecab_path") = None ->
  fst (test_parse arg_mecab_path w)
  = match probe_outcome (candidate_value arg_mecab_path) (settings w) with
    | inr toks =>
        Ret (Json [("result", "success");
                   ("message",
                    test_src ++ " parsed to ["
                    ++ join ", " (reported_tokens toks) ++ "]")])
    | inl e =>
        Ret (Json [("result", "failure");
                   ("message", exn_name e ++ ": " ++ exn_str e)])
    end.
Proof.
  intros Hback. unfold test_parse, probe_outcome, candidate_value. run.
  set (v := match arg_mecab_path with Some s => VStr s | None => VNone end).
  unfold UserSetting_set_value at 1.
  destruct (set_value_error "mecab_path" v) as [e|] eqn:Hv; simpl.
  - destruct (set_value_staged_on_error "mecab_path" v); simpl;
      rewrite set_value_accepted by (simpl; exact Hback); reflexivity.
  - destruct (new_parser "japanese" _) as [e|p]; simpl.
    + rewrite set_value_accepted by (simpl; exact Hback). reflexivity.
    + destruct (get_parsed_tokens p _ _ _) as [e|toks]; simpl;
        rewrite set_value_accepted by (simpl; exact Hback); reflexivity.
Qed.

(** C9. [test_parse] answers with a result and a message.  When its test
    parse succeeds the result is success and the message is the source
    text followed by the tokens of the parse (those it reports, see C10),
    separated by commas, in brackets; when the write of the candidate, the
    construction of the parser or the parse raises, the result is failure
    and the message is the name of the exception's type, a colon and its
    description.  The statement is for a store that accepts the write that
    puts the old value back. *)
Theorem test_parse_reports_tokens_or_error
    (arg_mecab_path : option string) (w : World) :
  set_value_error "mecab_path" (get_setting (settings w) "mecab_path") = None ->
  (forall toks,
      probe_outcome (candidate_value arg_mecab_path) (settings w) = inr toks ->
      fst (test_parse arg_mecab_path w)
      = Ret (Json [("result", "success");
                   ("message",
                    test_src ++ " parsed to ["
                    ++ join ", " (reported_tokens toks) ++ "]")]))
  /\ (forall e,
      probe_outcome (candidate_value arg_mecab_path) (settings w) = inl e ->
      fst (test_parse arg_mecab_path w)
      = Ret (Json [("result", "failure");
                   ("message", exn_name e ++ ": " ++ exn_str e)])).
Proof.
  intros Hback. split; intros x Hx;
    rewrite (test_parse_answer _ _ Hback), Hx; reflexivity.
Qed.

(** C10. In the success message of [test_parse] the paragraph marks are
    left out: the reported list is the texts of the produced tokens without
    those equal to the pilcrow, so no reported text is a pilcrow, every
    produced text that is not one is reported, and the order of production
    is kept. *)
Theorem test_parse_filters_paragraph_marks
    (arg_mecab_path : option string) (w : World) (toks : list ParsedToken) :
  set_value_error "mecab_path" (get_setting (settings w) "mecab_path") = None ->
  probe_outcome (candidate_value arg_mecab_path) (settings w) = inr toks ->
  exists reported : list string,
    fst (test_parse arg_mecab_path w)
    = Ret (Json [("result", "success");
                 ("message",
                  test_src ++ " parsed to [" ++ join ", " reported ++ "]")])
    /\ reported = filter (fun t => t <> pilcrow) (map token toks)
    /\ (forall t, t ∈ reported -> t <> pilcrow)
    /\ (forall tok, tok ∈ toks -> token tok <> pilcrow -> token tok ∈ reported)
    /\ reported `sublist_of` map token toks.
Proof.
  intros Hback Hprobe. exists (reported_tokens toks).
  split; [by rewrite (test_parse_answer _ _ Hback), Hprobe |].
  split; [apply reported_tokens_filter |].
  rewrite reported_tokens_filter. repeat split.
  - intros t Ht. by apply list_elem_of_filter in Ht as [? _].
  - intros tok Hin Hne. apply list_elem_of_filter. split; [done |].
    apply list_elem_of_fmap. by exists tok.
  - apply sublist_filter.
Qed.

(** ** The parser registry *)

(** The guard of [set_parser]: a request for the variant the setting
    names returns at once, the world being as it was. *)
Lemma set_parser_at_setting (unidic_type : string) (w : World) :
  get_setting (settings w) "unidic_types" = VStr unidic_type ->
  set_parser unidic_type w = (Ret (Text unidic_type), w).
Proof.
  intros Hsame. unfold set_parser. run. rewrite Hsame.
  by rewrite decide_True.
Qed.

(** Whatever [set_parser] answers is the requested variant. *)
Lemma set_parser_answer (unidic_type : string) (w : World) (r : Response) :
  fst (set_parser unidic_type w) = Ret r -> r = Text unidic_type.
Proof.
  unfold set_parser. run.
  destruct (decide (VStr unidic_type = get_setting (settings w) "unidic_types"));
    simpl; [congruence |].
  unfold parser_instances_getitem, get_parser, call_switch_tagger.
  destruct (parser_instances w !! "japanese") as [[l|]|] eqn:Hreg; simpl;
    [| | discriminate].
  - rewrite Hreg. simpl.
    destruct (heap w !! l) as [p|]; simpl; [| discriminate].
    destruct (switch_tagger p unidic_type); simpl; congruence.
  - rewrite ?Hreg. simpl.
    destruct (new_parser "japanese" (settings w)) as [e|p]; simpl;
      [discriminate |].
    rewrite lookup_insert_eq. simpl.
    rewrite list_lookup_middle by reflexivity. simpl.
    destruct (switch_tagger p unidic_type); simpl; congruence.
Qed.

(** Past the guard, [set_parser] answers once the switch has succeeded, on
    the instance the registry holds or on the one it has had constructed. *)
Lemma set_parser_answers_after_switch (unidic_type : string) (w : World) :
  get_setting (settings w) "unidic_types" <> VStr unidic_type ->
  (forall l p p',
      parser_instances w !! "japanese" = Some (Some l) ->
      heap w !! l = Some p ->
      switch_tagger p unidic_type = inr p' ->
      fst (set_parser unidic_type w) = Ret (Text unidic_type))
  /\ (forall p p',
      parser_instances w !! "japanese" = Some None ->
      new_parser "japanese" (settings w) = inr p ->
      switch_tagger p unidic_type = inr p' ->
      fst (set_parser unidic_type w) = Ret (Text unidic_type)).
Proof.
  intros Hne. unfold set_parser. run.
  rewrite decide_False by congruence.
  unfold parser_instances_getitem, get_parser, call_switch_tagger.
  split.
  - intros l p p' Hreg Hp Hsw. rewrite Hreg. simpl. rewrite Hreg. simpl.
    by rewrite Hp, Hsw.
  - intros p p' Hreg Hnew Hsw. rewrite Hreg. simpl. rewrite Hreg, Hnew. simpl.
    rewrite lookup_insert_eq. simpl.
    rewrite list_lookup_middle by reflexivity. simpl. by rewrite Hsw.
Qed.

(** C5, as the code has it. [set_parser] is a no-op when the requested
    variant equals the stored value of the [unidic_types] setting: it
    returns the requested variant at once and the registry, the parser
    objects and the call log are as before, so nothing was constructed or
    switched.  The guard reads the setting, not the variant of the
    instance.  On every path the answer, when there is one, is the
    requested variant, and past the guard there is one once the switch has
    succeeded. *)
Theorem set_parser_noop_when_setting_matches
    (unidic_type : string) (w : World) :
  (get_setting (settings w) "unidic_types" = VStr unidic_type ->
   set_parser unidic_type w = (Ret (Text unidic_type), w))
  /\ (forall r,
      fst (set_parser unidic_type w) = Ret r -> r = Text unidic_type)
  /\ (get_setting (settings w) "unidic_types" <> VStr unidic_type ->
      forall l p p',
        parser_instances w !! "japanese" = Some (Some l) ->
        heap w !! l = Some p ->
        switch_tagger p unidic_type = inr p' ->
        fst (set_parser unidic_type w) = Ret (Text unidic_type))
  /\ (get_setting (settings w) "unidic_types" <> VStr unidic_type ->
      forall p p',
        parser_instances w !! "japanese" = Some None ->
        new_parser "japanese" (settings w) = inr p ->
        switch_tagger p unidic_type = inr p' ->
        fst (set_parser unidic_type w) = Ret (Text unidic_type)).
Proof.
  split; [apply set_parser_at_setting |].
  split; [apply set_parser_answer |].
  split; intros Hne.
  - intros l p p'. by apply set_parser_answers_after_switch.
  - intros p p'. by apply set_parser_answers_after_switch.
Qed.

(** The paths of [set_parser] through the registry. *)
Lemma set_parser_registry_paths (unidic_type : string) (w : World) :
  let w' := snd (set_parser unidic_type w) in
  (forall l,
      parser_instances w !! "japanese" = Some (Some l) ->
      parser_instances w' = parser_instances w
      /\ length (heap w') = length (heap w))
  /\ (get_setting (settings w) "unidic_types" <> VStr unidic_type ->
      parser_instances w !! "japanese" = Some None ->
      forall p,
        new_parser "japanese" (settings w) = inr p ->
        new_calls w w'
        = [CNewParser "japanese"; CSwitchTagger (length (heap w)) unidic_type]
        /\ parser_instances w' !! "japanese" = Some (Some (length (heap w)))
        /\ heap w' = (heap w ++ [switched p unidic_type])%list)
  /\ (get_setting (settings w) "unidic_types" <> VStr unidic_type ->
      forall l p,
        parser_instances w !! "japanese" = Some (Some l) ->
        heap w !! l = Some p ->
        new_calls w w' = [CSwitchTagger l unidic_type]
        /\ heap w' = <[l := switched p unidic_type]> (heap w)).
Proof.
  cbv zeta. unfold set_parser. run.
  destruct (decide (VStr unidic_type = get_setting (settings w) "unidic_types"))
    as [Heq|Hne]; simpl.
  { split; [done |]. split; intros Hd; by destruct Hd. }
  unfold parser_instances_getitem, get_parser, call_switch_tagger, switched.
  split; [| split].
  - intros l Hl. rewrite Hl. simpl. rewrite Hl. simpl.
    destruct (heap w !! l) as [p|]; simpl; [| done].
    destruct (switch_tagger p unidic_type); simpl; [done |].
    by rewrite length_insert.
  - intros _ Hnone p Hp. rewrite Hnone. simpl. rewrite Hnone, Hp. simpl.
    rewrite lookup_insert_eq. simpl.
    rewrite list_lookup_middle by reflexivity. simpl.
    destruct (switch_tagger p unidic_type) as [e|p']; simpl.
    + split; [| split].
      * apply new_calls_app. simpl. by rewrite <- !app_assoc.
      * apply lookup_insert_eq.
      * reflexivity.
    + split; [| split].
      * apply new_calls_app. simpl. by rewrite <- !app_assoc.
      * apply lookup_insert_eq.
      * pose proof (insert_app_r (heap w) [p] 0 p') as Hi.
        rewrite Nat.add_0_r in Hi. exact Hi.
  - intros _ l p Hl Hp. rewrite Hl. simpl. rewrite Hl. simpl. rewrite Hp.
    destruct (switch_tagger p unidic_type) as [e|p']; simpl.
    + split; [by apply new_calls_app |]. symmetry. by apply list_insert_id.
    + split; [by apply new_calls_app | reflexivity].
Qed.

(** Past the guard, a registry without an entry for the parser: the
    subscript raises and nothing has changed. *)
Lemma set_parser_no_entry (unidic_type : string) (w : World) :
  get_setting (settings w) "unidic_types" <> VStr unidic_type ->
  parser_instances w !! "japanese" = None ->
  set_parser unidic_type w = (Raise (mkExn "KeyError" "'japanese'"), w).
Proof.
  intros Hne Hreg. unfold set_parser. run.
  rewrite decide_False by congruence.
  unfold parser_instances_getitem. by rewrite Hreg.
Qed.

(** Past the guard, a construction that fails: its exception escapes
    before any switch. *)
Lemma set_parser_construction_raises
    (unidic_type : string) (w : World) (e : Exn) :
  get_setting (settings w) "unidic_types" <> VStr unidic_type ->
  parser_instances w !! "japanese" = Some None ->
  new_parser "japanese" (settings w) = inl e ->
  fst (set_parser unidic_type w) = Raise e
  /\ new_calls w (snd (set_parser unidic_type w)) = [CNewParser "japanese"]
  /\ parser_instances (snd (set_parser unidic_type w)) = parser_instances w.
Proof.
  intros Hne Hreg Hnew. unfold set_parser. run.
  rewrite decide_False by congruence.
  unfold parser_instances_getitem, get_parser.
  rewrite Hreg. simpl. rewrite Hreg, Hnew. simpl.
  split; [reflexivity |]. split; [by apply new_calls_app | reflexivity].
Qed.

(** C6, as the code has it. An instance the registry holds is never
    replaced by [set_parser], on any path.  When the requested variant
    differs from the stored [unidic_types] setting: with an entry that
    holds no instance the route first has a parser constructed and
    registered, then calls [switch_tagger] on it, and when the construction
    fails its exception escapes before any switch; with an instance in the
    registry it calls [switch_tagger] on that object, which is updated
    where it is; with no entry of that name it raises a [KeyError] and has
    changed nothing.  When the requested variant equals the setting the
    route returns at once and nothing is constructed or switched. *)
Theorem set_parser_switches_in_place (unidic_type : string) (w : World) :
  let w' := snd (set_parser unidic_type w) in
  (forall l,
      parser_instances w !! "japanese" = Some (Some l) ->
      parser_instances w' = parser_instances w
      /\ length (heap w') = length (heap w))
  /\ (get_setting (settings w) "unidic_types" <> VStr unidic_type ->
      parser_instances w !! "japanese" = Some None ->
      forall p,
        new_parser "japanese" (settings w) = inr p ->
        new_calls w w'
        = [CNewParser "japanese"; CSwitchTagger (length (heap w)) unidic_type]
        /\ parser_instances w' !! "japanese" = Some (Some (length (heap w)))
        /\ heap w' = (heap w ++ [switched p unidic_type])%list)
  /\ (get_setting (settings w) "unidic_types" <> VStr unidic_type ->
      forall l p,
        parser_instances w !! "japanese" = Some (Some l) ->
        heap w !! l = Some p ->
        new_calls w w' = [CSwitchTagger l unidic_type]
        /\ heap w' = <[l := switched p unidic_type]> (heap w))
  /\ (get_setting (settings w) "unidic_types" = VStr unidic_type ->
      set_parser unidic_type w = (Ret (Text unidic_type), w))
  /\ (get_setting (settings w) "unidic_types" <> VStr unidic_type ->
      parser_instances w !! "japanese" = None ->
      set_parser unidic_type w = (Raise (mkExn "KeyError" "'japanese'"), w))
  /\ (get_setting (settings w) "unidic_types" <> VStr unidic_type ->
      parser_instances w !! "japanese" = Some None ->
      forall e,
        new_parser "japanese" (settings w) = inl e ->
        fst (set_parser unidic_type w) = Raise e
        /\ new_calls w w' = [CNewParser "japanese"]
        /\ parser_instances w' = parser_instances w).
Proof.
  cbv zeta.
  pose proof (set_parser_registry_paths unidic_type w) as Hpaths.
  cbv zeta in Hpaths. destruct Hpaths as (Hkept & Hfresh & Hheld).
  split; [exact Hkept |]. split; [exact Hfresh |]. split; [exact Hheld |].
  split; [apply set_parser_at_setting |].
  split; [apply set_parser_no_entry |].
  intros Hne Hreg e Hnew. by apply set_parser_construction_raises.
Qed.

(** ** The bulk path *)

(** The loop of [edit_settings] over a form whose writes the store
    accepts: the writes are made in the order of the form and nothing else
    changes. *)
Lemma for_each_field_writes (form : list Field) (w : World) :
  (forall f, f ∈ form -> id f <> "csrf_token" ->
             set_value_error (id f) (data f) = None) ->
  for_each form
    (fun field =>
       if negb (String.eqb (id field) "csrf_token"
                || String.eqb (id field) "submit")
       then UserSetting_set_value (id field) (data field)
       else mret tt) w
  = (Ret tt,
     mkWorld (apply_writes form (settings w)) (committed w)
             (parser_instances w) (heap w) (calls w ++ form_writes form)).
Proof.
  revert w. induction form as [|f form IH]; intros w Hok.
  - simpl. unfold form_writes. simpl. rewrite app_nil_r. by destruct w.
  - simpl. run. unfold form_writes, apply_writes. rewrite filter_cons. simpl.
    assert (Hrest : forall f', f' ∈ form -> id f' <> "csrf_token" ->
                               set_value_error (id f') (data f') = None)
      by (intros f' Hin; apply Hok; by right).
    destruct (String.eqb_spec (id f) "csrf_token") as [Hc|Hc]; simpl.
    + rewrite IH by exact Hrest.
      rewrite decide_False by (intros [? _]; done).
      rewrite decide_False by (intros [? _]; done). reflexivity.
    + destruct (String.eqb_spec (id f) "submit") as [Hs|Hs]; simpl.
      * rewrite IH by exact Hrest.
        rewrite decide_False by (intros [_ ?]; done).
        rewrite decide_False by (intros [_ ?]; done). reflexivity.
      * rewrite set_value_accepted by (apply Hok; [by left | exact Hc]).
        rewrite IH by exact Hrest. simpl.
        rewrite decide_True by done. rewrite decide_True by done.
        simpl. unfold form_writes, apply_writes.
        by rewrite <- app_assoc.
Qed.

Lemma commit_count_form_writes (form : list Field) (message category : string) :
  commit_count (form_writes form ++ [CCommit; CFlash message category]) = 1.
Proof.
  unfold commit_count, form_writes. rewrite filter_app, length_app.
  rewrite filter_cons, decide_True by done.
  rewrite filter_cons, decide_False by done. simpl.
  induction (filter (fun f => id f <> "csrf_token" /\ id f <> "submit") form)
    as [|f fs IH]; [reflexivity |].
  simpl. rewrite filter_cons, decide_False by done. exact IH.
Qed.

(** The writes of the form of a request: one per setting key, with the
    submitted value, in the order of declaration. *)
Lemma form_writes_edit_settings_form (req : Request) :
  form_writes (edit_settings_form req)
  = map (fun name => CSetValue name (formdata req name)) settings_keys.
Proof.
  unfold edit_settings_form. destruct (is_docker req); vm_compute; reflexivity.
Qed.

Lemma apply_writes_cons (f : Field) (form : list Field) (s : gmap string pyval) :
  apply_writes (f :: form) s
  = apply_writes form
      (if decide (id f <> "csrf_token" /\ id f <> "submit")
       then <[id f := data f]> s else s).
Proof. reflexivity. Qed.

(** A key that no field of the form has keeps its entry. *)
Lemma apply_writes_other
    (form : list Field) (s : gmap string pyval) (key : string) :
  key ∉ map id form -> apply_writes form s !! key = s !! key.
Proof.
  revert s. induction form as [|f form IH]; intros s Hnot; [reflexivity |].
  rewrite apply_writes_cons. simpl in Hnot.
  apply not_elem_of_cons in Hnot as [Hne Hnot].
  rewrite IH by exact Hnot.
  case_decide; [by rewrite lookup_insert_ne | reflexivity].
Qed.

(** With distinct field names, a written field reads back as its data. *)
Lemma apply_writes_field
    (form : list Field) (s : gmap string pyval) (f : Field) :
  NoDup (map id form) -> f ∈ form ->
  id f <> "csrf_token" -> id f <> "submit" ->
  apply_writes form s !! id f = Some (data f).
Proof.
  revert s. induction form as [|f0 form IH]; intros s Hnd Hin Hc Hs.
  - by apply elem_of_nil in Hin.
  - rewrite apply_writes_cons. simpl in Hnd.
    apply NoDup_cons in Hnd as [Hfresh Hnd].
    apply elem_of_cons in Hin as [->|Hin].
    + rewrite apply_writes_other by exact Hfresh.
      rewrite decide_True by done. apply lookup_insert_eq.
    + by apply IH.
Qed.

Lemma edit_settings_form_ids (req : Request) :
  map id (edit_settings_form req) = map fst UserSettingsForm_fields.
Proof.
  unfold edit_settings_form. destruct (is_docker req); vm_compute; reflexivity.
Qed.

Lemma edit_settings_form_data (req : Request) (f : Field) :
  f ∈ edit_settings_form req -> data f = formdata req (id f).
Proof.
  revert f. apply Forall_forall.
  unfold edit_settings_form, UserSettingsForm.
  destruct (is_docker req).
  - rewrite map_map. apply Forall_fmap, Forall_forall. intros d _. simpl.
    by destruct (String.eqb (fst d) "backup_dir").
  - apply Forall_fmap, Forall_forall. by intros d _.
Qed.

Lemma apply_writes_edit_settings_form
    (req : Request) (s : gmap string pyval) (name : string) :
  name ∈ settings_keys ->
  get_setting (apply_writes (edit_settings_form req) s) name
  = formdata req name.
Proof.
  intros Hin. unfold settings_keys in Hin.
  apply list_elem_of_filter in Hin as [Hc Hin].
  assert (Hs : name <> "submit").
  { intros ->. apply list_elem_of_In in Hin. simpl in Hin.
    intuition discriminate. }
  rewrite <- (edit_settings_form_ids req) in Hin.
  apply list_elem_of_fmap in Hin as (f & -> & Hf).
  unfold get_setting. rewrite apply_writes_field; try done.
  - simpl. by apply edit_settings_form_data.
  - rewrite edit_settings_form_ids.
    apply (bool_decide_unpack (NoDup (map fst UserSettingsForm_fields))).
    vm_compute. exact I.
Qed.

(** C8. On a submitted form that passed validation, [edit_settings] writes
    every field of the form but the CSRF token (the form has no submit
    field) to the store, in the order of the form, and commits once, after
    the last write and before the message to the user; every setting key
    then reads as the submitted value and what the session sees is what was
    committed.  The statement is for a store that accepts these writes. *)
Theorem edit_settings_writes_then_commits (req : Request) (w : World) :
  validate_on_submit req (edit_settings_form req) = true ->
  (forall f, f ∈ edit_settings_form req -> id f <> "csrf_token" ->
             set_value_error (id f) (data f) = None) ->
  let w' := snd (edit_settings req w) in
  fst (edit_settings req w) = Ret (RedirectTo "/")
  /\ new_calls w w'
     = (map (fun name => CSetValue name (formdata req name)) settings_keys
        ++ [CCommit; CFlash "Settings updated" "success"])%list
  /\ commit_count (new_calls w w') = 1
  /\ (forall name, name ∈ settings_keys ->
                   get_setting (settings w') name = formdata req name)
  /\ committed w' = settings w'.
Proof.
  intros Hvalid Hok. cbv zeta. unfold edit_settings. rewrite Hvalid.
  rewrite <- form_writes_edit_settings_form.
  unfold mbind, M_bind, bind.
  rewrite for_each_field_writes by exact Hok.
  cbv beta iota zeta delta [db_session_commit flash mret M_ret ret log
                            with_committed fst snd calls settings committed
                            parser_instances heap].
  erewrite new_calls_app; [| rewrite <- !app_assoc; reflexivity].
  split; [reflexivity |]. split; [reflexivity |].
  split; [apply commit_count_form_writes |].
  split; [| reflexivity].
  intros name Hin. by apply apply_writes_edit_settings_form.
Qed.

(** ** The validator of the backup directory *)

Lemma py_or_str (v : string) :
  py_or (VStr v) (VStr "") = VStr v.
Proof.
  unfold py_or. simpl. destruct (String.eqb_spec v ""); by subst.
Qed.

Lemma is_absolute_differs (v v' : string) :
  is_absolute v = false -> is_absolute v' = true -> String.eqb v v' = false.
Proof.
  intros Hrel Habs. apply String.eqb_neq. intros ->. congruence.
Qed.

(** With backups enabled, the validator accepts exactly a directory that is
    not blank, is its own absolute form, exists and is a directory. *)
Lemma validate_backup_dir_accepts (self : list Field) (field : Field) (v : string) :
  form_data self "backup_enabled" = VBool true ->
  data field = VStr v ->
  validate_backup_dir self field = Ret tt
  <-> (py_strip v <> "" /\ os_path_abspath v = v
       /\ os_path_exists v = true /\ os_path_isdir v = true).
Proof.
  intros Hen Hv. unfold validate_backup_dir. rewrite Hen, Hv, py_or_str.
  rewrite decide_False by discriminate.
  destruct (String.eqb_spec (py_strip v) ""); [intuition congruence |].
  destruct (String.eqb_spec v (os_path_abspath v)); simpl;
    [| intuition congruence].
  destruct (os_path_exists v); simpl; [| intuition congruence].
  destruct (os_path_isdir v); simpl; intuition congruence.
Qed.

(** With backups enabled, what the validator raises is a
    [ValidationError]. *)
Lemma validate_backup_dir_raises (self : list Field) (field : Field) (v : string) :
  form_data self "backup_enabled" = VBool true ->
  data field = VStr v ->
  validate_backup_dir self field <> Ret tt ->
  exists msg, validate_backup_dir self field = Raise (ValidationError msg).
Proof.
  intros Hen Hv. unfold validate_backup_dir. rewrite Hen, Hv, py_or_str.
  rewrite decide_False by discriminate.
  repeat (match goal with
          | |- context [if ?b then _ else _] => destruct b
          end; simpl; eauto).
  intros H. by destruct H.
Qed.

(** C7. The validator of the backup directory accepts any directory, the
    empty one included, when backups are disabled.  With backups enabled it
    rejects the empty directory as required; it rejects a relative path,
    and when the path is not blank the message proposes the absolute path
    that [os.path.abspath] (which returns absolute paths) gives for it; it
    rejects a path that does not exist; and it rejects a path that is not
    a directory. *)
Theorem validate_backup_dir_rules (self : list Field) (field : Field) :
  (form_data self "backup_enabled" = VBool false ->
   validate_backup_dir self field = Ret tt)
  /\ (form_data self "backup_enabled" = VBool true ->
      (data field = VStr "" ->
       validate_backup_dir self field
       = Raise (ValidationError "Backup directory required"))
      /\ (forall v,
            data field = VStr v ->
            is_absolute v = false ->
            is_absolute (os_path_abspath v) = true ->
            (exists msg,
                validate_backup_dir self field = Raise (ValidationError msg))
            /\ (py_strip v <> "" ->
                validate_backup_dir self field
                = Raise (ValidationError
                           ("Backup dir must be absolute path.  Did you mean "
                            ++ dquote ++ os_path_abspath v ++ dquote ++ "?"))))
      /\ (forall v,
            data field = VStr v ->
            os_path_exists v = false ->
            (exists msg,
                validate_backup_dir self field = Raise (ValidationError msg))
            /\ (py_strip v <> "" -> os_path_abspath v = v ->
                validate_backup_dir self field
                = Raise (ValidationError
                           ("Directory " ++ dquote ++ v ++ dquote
                            ++ " does not exist."))))
      /\ (forall v,
            data field = VStr v ->
            os_path_isdir v = false ->
            (exists msg,
                validate_backup_dir self field = Raise (ValidationError msg))
            /\ (py_strip v <> "" -> os_path_abspath v = v ->
                os_path_exists v = true ->
                validate_backup_dir self field
                = Raise (ValidationError
                           (dquote ++ v ++ dquote ++ " is not a directory."))))).
Proof.
  split.
  { intros Hen. unfold validate_backup_dir. by rewrite Hen, decide_True. }
  intros Hen. split; [| split; [| split]].
  - intros Hv. unfold validate_backup_dir. rewrite Hen, Hv.
    rewrite decide_False by discriminate. reflexivity.
  - intros v Hv Hrel Habs. split.
    + apply (validate_backup_dir_raises self field v Hen Hv).
      rewrite (validate_backup_dir_accepts self field v Hen Hv).
      intros (_ & Heq & _). rewrite Heq in Habs. congruence.
    + intros Hblank. unfold validate_backup_dir.
      rewrite Hen, Hv, py_or_str. rewrite decide_False by discriminate.
      apply String.eqb_neq in Hblank. rewrite Hblank.
      by rewrite (is_absolute_differs _ _ Hrel Habs).
  - intros v Hv Hex. split.
    + apply (validate_backup_dir_raises self field v Hen Hv).
      rewrite (validate_backup_dir_accepts self field v Hen Hv).
      intros (_ & _ & Hex' & _). congruence.
    + intros Hblank Habs. unfold validate_backup_dir.
      rewrite Hen, Hv, py_or_str. rewrite decide_False by discriminate.
      apply String.eqb_neq in Hblank. rewrite Hblank, Habs.
      by rewrite String.eqb_refl, Hex.
  - intros v Hv Hdir. split.
    + apply (validate_backup_dir_raises self field v Hen Hv).
      rewrite (validate_backup_dir_accepts self field v Hen Hv).
      intros (_ & _ & _ & Hdir'). congruence.
    + intros Hblank Habs Hex. unfold validate_backup_dir.
      rewrite Hen, Hv, py_or_str. rewrite decide_False by discriminate.
      apply String.eqb_neq in Hblank. rewrite Hblank, Habs.
      by rewrite String.eqb_refl, Hex, Hdir.
Qed.

End Properties.

(** * The theorems at work on a concrete platform *)

Lemma test_parse_preserves_settings_witness :
  @set_value_error Demo.platform "mecab_path"
    (@get_setting Demo.platform (settings Demo.world0) "mecab_path") = None
  /\ @get_setting Demo.platform
       (settings (snd (@test_parse Demo.platform (Some "/bad/path") Demo.world0)))
       "mecab_path"
     = VStr "/usr/bin/mecab".
Proof.
  split; [vm_compute; reflexivity |].
  rewrite (@test_parse_preserves_settings Demo.platform (Some "/bad/path")
             Demo.world0 "mecab_path");
    vm_compute; reflexivity.
Defined.

Lemma set_key_value_restores_on_failure_witness :
  fst (@set_key_value Demo.platform "backup_count" "many" Demo.world0)
  = Ret (Json [("result", "failure");
               ("message", "ValueError: not a number: many")])
  /\ @get_setting Demo.platform
       (settings (snd (@set_key_value Demo.platform "backup_count" "many"
                         Demo.world0)))
       "backup_count"
     = VInt 5.
Proof.
  destruct (@set_key_value_restores_on_failure Demo.platform
              "backup_count" "many" Demo.world0
              (mkExn "ValueError" "not a number: many"))
    as (Hanswer & _ & Hget); [vm_compute; reflexivity .. |].
  split; [exact Hanswer |].
  rewrite Hget. vm_compute. reflexivity.
Defined.

Lemma set_key_value_then_get_witness :
  fst ((@set_key_value Demo.platform "mecab_path" "/usr/local/bin/mecab" ;;
        @UserSetting_get_value Demo.platform "mecab_path") Demo.world0)
  = Ret (VStr "/usr/local/bin/mecab").
Proof.
  apply (@set_key_value_then_get Demo.platform "mecab_path"
           "/usr/local/bin/mecab" Demo.world0).
  vm_compute. reflexivity.
Defined.

Lemma set_key_value_commits_once_witness :
  commit_count
    (new_calls Demo.world0
       (snd (@set_key_value Demo.platform "backup_count" "many" Demo.world0)))
  = 1
  /\ commit_count
       (new_calls Demo.world0
          (snd (@set_key_value Demo.platform "backup_count" "7" Demo.world0)))
     = 1.
Proof.
  split.
  - apply (@set_key_value_commits_once Demo.platform "backup_count" "many"
             Demo.world0).
    intros _. vm_compute. reflexivity.
  - apply (@set_key_value_commits_once Demo.platform "backup_count" "7"
             Demo.world0).
    intros _. vm_compute. reflexivity.
Defined.

Lemma test_parse_reports_tokens_or_error_witness :
  fst (@test_parse Demo.platform (Some "/bad/path") Demo.world0)
  = Ret (Json [("result", "failure");
               ("message", "ParserInitError: no mecab at /bad/path")])
  /\ fst (@test_parse Demo.platform (Some "/usr/local/bin/mecab") Demo.world0)
     = Ret (Json [("result", "success");
                  ("message", "私は元気です parsed to [私, は, 元気, です]")]).
Proof.
  split.
  - apply (proj2 (@test_parse_reports_tokens_or_error Demo.platform
                    (Some "/bad/path") Demo.world0
                    ltac:(vm_compute; reflexivity))
             (mkExn "ParserInitError" "no mecab at /bad/path")).
    vm_compute. reflexivity.
  - apply (proj1 (@test_parse_reports_tokens_or_error Demo.platform
                    (Some "/usr/local/bin/mecab") Demo.world0
                    ltac:(vm_compute; reflexivity))
             [mkToken "私" false; mkToken "は" false; mkToken "元気" false;
              mkToken "です" false; mkToken "¶" true]).
    vm_compute. reflexivity.
Defined.

Lemma test_parse_filters_paragraph_marks_witness :
  exists reported : list string,
    fst (@test_parse Demo.platform (Some "/usr/local/bin/mecab") Demo.world0)
    = Ret (Json [("result", "success");
                 ("message",
                  test_src ++ " parsed to [" ++ join ", " reported ++ "]")])
    /\ reported = ["私"; "は"; "元気"; "です"].
Proof.
  destruct (@test_parse_filters_paragraph_marks Demo.platform
              (Some "/usr/local/bin/mecab") Demo.world0
              [mkToken "私" false; mkToken "は" false; mkToken "元気" false;
               mkToken "です" false; mkToken "¶" true])
    as (reported & Hanswer & Hreported & _); [vm_compute; reflexivity .. |].
  exists reported. split; [exact Hanswer |].
  rewrite Hreported. vm_compute. reflexivity.
Defined.

Lemma set_parser_noop_when_setting_matches_witness :
  unidic_type <$> heap Demo.world1 !! 0 = Some "writing"
  /\ @set_parser Demo.platform "spoken" Demo.world1
     = (Ret (Text "spoken"), Demo.world1)
  /\ fst (@set_parser Demo.platform "writing" Demo.world0)
     = Ret (Text "writing").
Proof.
  split; [vm_compute; reflexivity |]. split.
  - apply (proj1 (@set_parser_noop_when_setting_matches Demo.platform
                    "spoken" Demo.world1)).
    vm_compute. reflexivity.
  - apply (proj2 (proj2 (proj2
             (@set_parser_noop_when_setting_matches Demo.platform
                "writing" Demo.world0)))
             ltac:(vm_compute; discriminate)
             (mkParser (VStr "/usr/bin/mecab") "spoken" 0)
             (mkParser (VStr "/usr/bin/mecab") "writing" 1));
      vm_compute; reflexivity.
Defined.

(** C5 as stated fails: after one switch to the writing dictionary the
    registry holds an instance that tags with it, yet a second request for
    that variant does not return at once: the setting still reads spoken,
    so the route calls [switch_tagger] on the instance again. *)
Lemma set_parser_switches_at_current_variant :
  parser_instances Demo.world1 !! "japanese" = Some (Some 0)
  /\ unidic_type <$> heap Demo.world1 !! 0 = Some "writing"
  /\ new_calls Demo.world1
       (snd (@set_parser Demo.platform "writing" Demo.world1))
     = [CSwitchTagger 0 "writing"]
  /\ @set_parser Demo.platform "writing" Demo.world1
     <> (Ret (Text "writing"), Demo.world1).
Proof.
  split; [vm_compute; reflexivity |].
  split; [vm_compute; reflexivity |].
  split; [vm_compute; reflexivity |].
  intros Heq. apply (f_equal (fun r => length (calls (snd r)))) in Heq.
  vm_compute in Heq. discriminate.
Qed.

Lemma set_parser_switches_in_place_witness :
  (new_calls Demo.world0 (snd (@set_parser Demo.platform "writing" Demo.world0))
   = [CNewParser "japanese"; CSwitchTagger 0 "writing"]
   /\ parser_instances (snd (@set_parser Demo.platform "writing" Demo.world0))
      !! "japanese" = Some (Some 0)
   /\ heap (snd (@set_parser Demo.platform "writing" Demo.world0))
      = [mkParser (VStr "/usr/bin/mecab") "writing" 1])
  /\ @set_parser Demo.platform "spoken" Demo.world0
     = (Ret (Text "spoken"), Demo.world0)
  /\ @set_parser Demo.platform "writing" Demo.world_no_entry
     = (Raise (mkExn "KeyError" "'japanese'"), Demo.world_no_entry)
  /\ parser_instances (snd (@set_parser Demo.platform "spoken" Demo.world1))
     = parser_instances Demo.world1.
Proof.
  pose proof (@set_parser_switches_in_place Demo.platform "writing"
                Demo.world0) as H.
  cbv zeta in H. destruct H as (_ & H & _).
  split.
  { apply (H ltac:(vm_compute; discriminate) ltac:(vm_compute; reflexivity)
             (mkParser (VStr "/usr/bin/mecab") "spoken" 0)
             ltac:(vm_compute; reflexivity)). }
  pose proof (@set_parser_switches_in_place Demo.platform "spoken"
                Demo.world0) as Hguard.
  cbv zeta in Hguard. destruct Hguard as (_ & _ & _ & Hguard & _).
  split; [apply Hguard; vm_compute; reflexivity |].
  pose proof (@set_parser_switches_in_place Demo.platform "writing"
                Demo.world_no_entry) as Hentry.
  cbv zeta in Hentry. destruct Hentry as (_ & _ & _ & _ & Hentry & _).
  split; [apply Hentry; [vm_compute; discriminate | vm_compute; reflexivity] |].
  pose proof (@set_parser_switches_in_place Demo.platform "spoken"
                Demo.world1) as Hkept.
  cbv zeta in Hkept. destruct Hkept as (Hkept & _).
  apply (Hkept 0). vm_compute. reflexivity.
Defined.

(** C6 as stated fails: with no instance in the registry, a request for
    the variant the setting already names returns at once; no parser is
    constructed and the registry still holds none. *)
Lemma set_parser_skips_construction :
  parser_instances Demo.world0 !! "japanese" = Some None
  /\ fst (@set_parser Demo.platform "spoken" Demo.world0)
     = Ret (Text "spoken")
  /\ new_calls Demo.world0 (snd (@set_parser Demo.platform "spoken" Demo.world0))
     = []
  /\ parser_instances (snd (@set_parser Demo.platform "spoken" Demo.world0))
     !! "japanese" = Some None.
Proof. repeat split; vm_compute; reflexivity. Qed.

Lemma validate_backup_dir_rules_witness :
  @validate_backup_dir Demo.platform (Demo.form_with false "")
    (mkField "backup_dir" StringField (VStr "") []) = Ret tt
  /\ @validate_backup_dir Demo.platform (Demo.form_with true "")
       (mkField "backup_dir" StringField (VStr "") [])
     = Raise (ValidationError "Backup directory required")
  /\ @validate_backup_dir Demo.platform (Demo.form_with true "backups")
       (mkField "backup_dir" StringField (VStr "backups") [])
     = Raise (ValidationError
                ("Backup dir must be absolute path.  Did you mean "
                 ++ dquote ++ "/lute/backups" ++ dquote ++ "?"))
  /\ @validate_backup_dir Demo.platform (Demo.form_with true "/nowhere")
       (mkField "backup_dir" StringField (VStr "/nowhere") [])
     = Raise (ValidationError
                ("Directory " ++ dquote ++ "/nowhere" ++ dquote
                 ++ " does not exist."))
  /\ @validate_backup_dir Demo.platform (Demo.form_with true "/etc/hosts")
       (mkField "backup_dir" StringField (VStr "/etc/hosts") [])
     = Raise (ValidationError
                (dquote ++ "/etc/hosts" ++ dquote ++ " is not a directory.")).
Proof.
  split.
  { apply (@validate_backup_dir_rules Demo.platform). reflexivity. }
  split.
  { apply (@validate_backup_dir_rules Demo.platform); reflexivity. }
  split.
  { apply (proj1 (proj2 (proj2 (@validate_backup_dir_rules Demo.platform
                                  (Demo.form_with true "backups")
                                  (mkField "backup_dir" StringField
                                           (VStr "backups") []))
                           eq_refl))
             "backups" eq_refl eq_refl eq_refl).
    vm_compute. discriminate. }
  split.
  { apply (proj1 (proj2 (proj2 (proj2 (@validate_backup_dir_rules Demo.platform
                                  (Demo.form_with true "/nowhere")
                                  (mkField "backup_dir" StringField
                                           (VStr "/nowhere") []))
                           eq_refl)))
             "/nowhere" eq_refl eq_refl).
    - vm_compute. discriminate.
    - reflexivity. }
  apply (proj2 (proj2 (proj2 (proj2 (@validate_backup_dir_rules Demo.platform
                                  (Demo.form_with true "/etc/hosts")
                                  (mkField "backup_dir" StringField
                                           (VStr "/etc/hosts") []))
                           eq_refl)))
             "/etc/hosts" eq_refl eq_refl).
  - vm_compute. discriminate.
  - reflexivity.
  - reflexivity.
Defined.

Lemma edit_settings_writes_then_commits_witness :
  fst (@edit_settings Demo.platform Demo.request Demo.world0)
  = Ret (RedirectTo "/")
  /\ @get_setting Demo.platform
       (settings (snd (@edit_settings Demo.platform Demo.request Demo.world0)))
       "backup_count"
     = VInt 5
  /\ commit_count
       (new_calls Demo.world0
          (snd (@edit_settings Demo.platform Demo.request Demo.world0)))
     = 1.
Proof.
  destruct (@edit_settings_writes_then_commits Demo.platform Demo.request
              Demo.world0)
    as (Hanswer & _ & Hcommit & Hget & _).
  - vm_compute. reflexivity.
  - intros f Hin _. apply list_elem_of_In in Hin. vm_compute in Hin.
    repeat (destruct Hin as [<-|Hin]; [vm_compute; reflexivity |]).
    destruct Hin.
  - split; [exact Hanswer |]. split; [| exact Hcommit].
    apply (Hget "backup_count"). vm_compute.
    do 4 apply list_elem_of_further. apply list_elem_of_here.
Defined.

(** * Further properties of the routes *)

Section FurtherProperties.
Context `{P : Platform}.

Ltac step :=
  unfold mbind, M_bind, bind, mret, M_ret, ret, raise, try_finally,
    try_except, UserSetting_get_value, db_session_commit,
    JapaneseParser_new, parser_get_parsed_tokens, lift_read, jsonify,
    flash in *;
  simpl in *.

Ltac case_call :=
  match goal with
  | |- context [match ?x with inl _ => _ | inr _ => _ end] =>
      let H := fresh "Hcall" in destruct x eqn:H; simpl
  | |- context [match set_value_error ?k ?v with Some _ => _ | None => _ end] =>
      let H := fresh "Hset" in destruct (set_value_error k v) eqn:H; simpl
  | |- context [if set_value_staged_on_error ?k ?v then _ else _] =>
      destruct (set_value_staged_on_error k v); simpl
  end.

(** ** The validator *)

Lemma py_or_string (v : string) : py_or (VStr v) (VStr "") = VStr v.
Proof.
  unfold py_or. simpl. destruct (String.eqb_spec v ""); by subst.
Qed.

(** The validator on a string, backups not being disabled: the four checks
    in their order. *)
Lemma validate_backup_dir_checks (self : list Field) (field : Field) (v : string) :
  form_data self "backup_enabled" <> VBool false ->
  data field = VStr v ->
  validate_backup_dir self field
  = if String.eqb (py_strip v) "" then
      Raise (ValidationError "Backup directory required")
    else if negb (String.eqb v (os_path_abspath v)) then
      Raise (ValidationError
               ("Backup dir must be absolute path.  Did you mean "
                ++ dquote ++ os_path_abspath v ++ dquote ++ "?"))
    else if negb (os_path_exists v) then
      Raise (ValidationError
               ("Directory " ++ dquote ++ v ++ dquote ++ " does not exist."))
    else if negb (os_path_isdir v) then
      Raise (ValidationError (dquote ++ v ++ dquote ++ " is not a directory."))
    else Ret tt.
Proof.
  intros Hen Hv. unfold validate_backup_dir.
  rewrite decide_False by exact Hen. by rewrite Hv, py_or_string.
Qed.

(** The directories the validator accepts. *)
Lemma validate_backup_dir_accepted (self : list Field) (field : Field) (v : string) :
  form_data self "backup_enabled" <> VBool false ->
  data field = VStr v ->
  validate_backup_dir self field = Ret tt
  <-> (py_strip v <> "" /\ os_path_abspath v = v
       /\ os_path_exists v = true /\ os_path_isdir v = true).
Proof.
  intros Hen Hv. rewrite (validate_backup_dir_checks self field v Hen Hv).
  destruct (String.eqb_spec (py_strip v) ""); [intuition congruence |].
  destruct (String.eqb_spec v (os_path_abspath v)); simpl;
    [| intuition congruence].
  destruct (os_path_exists v); simpl; [| intuition congruence].
  destruct (os_path_isdir v); simpl; intuition congruence.
Qed.

(** X1. Unless the backup flag is the boolean [False], the validator
    accepts a directory exactly when it is not blank, is its own absolute
    form, exists and is a directory. *)
Theorem validate_backup_dir_accepts_iff
    (self : list Field) (field : Field) (v : string) :
  form_data self "backup_enabled" <> VBool false ->
  data field = VStr v ->
  validate_backup_dir self field = Ret tt
  <-> (py_strip v <> "" /\ os_path_abspath v = v
       /\ os_path_exists v = true /\ os_path_isdir v = true).
Proof.
  intros Hen Hv. split.
  - intros Hok. by apply (validate_backup_dir_accepted self field v Hen Hv).
  - intros Hdir. by apply (validate_backup_dir_accepted self field v Hen Hv).
Qed.

(** X2. Unless the backup flag is the boolean [False], a directory that is
    [None] or made of white space only is refused as required, before the
    file system is looked at. *)
Theorem validate_backup_dir_blank_required (self : list Field) (field : Field) :
  form_data self "backup_enabled" <> VBool false ->
  data field = VNone \/ (exists v, data field = VStr v /\ py_strip v = "") ->
  validate_backup_dir self field
  = Raise (ValidationError "Backup directory required").
Proof.
  intros Hen [Hnone | (v & Hv & Hblank)].
  - unfold validate_backup_dir. rewrite decide_False by exact Hen.
    by rewrite Hnone.
  - rewrite (validate_backup_dir_checks self field v Hen Hv).
    by rewrite Hblank.
Qed.

(** X3. Unless the backup flag is the boolean [False], a directory that is
    not blank and differs from what [os.path.abspath] makes of it is
    refused with the message that proposes that path, whether or not it
    exists: so is a relative path, and so is an absolute one that is not
    in normal form. *)
Theorem validate_backup_dir_proposes_abspath
    (self : list Field) (field : Field) (v : string) :
  form_data self "backup_enabled" <> VBool false ->
  data field = VStr v ->
  py_strip v <> "" ->
  os_path_abspath v <> v ->
  validate_backup_dir self field
  = Raise (ValidationError
             ("Backup dir must be absolute path.  Did you mean "
              ++ dquote ++ os_path_abspath v ++ dquote ++ "?")).
Proof.
  intros Hen Hv Hblank Habs.
  rewrite (validate_backup_dir_checks self field v Hen Hv).
  apply String.eqb_neq in Hblank. rewrite Hblank.
  assert (Hne : String.eqb v (os_path_abspath v) = false)
    by (apply String.eqb_neq; congruence).
  by rewrite Hne.
Qed.

(** ** The test parse and the single-key write *)

Lemma commit_count_nil : commit_count [] = 0.
Proof. reflexivity. Qed.

Lemma calls_added (w w' : World) (cs : list Call) :
  calls w' = (calls w ++ cs)%list -> new_calls w w' = cs.
Proof. intros H. unfold new_calls. rewrite H. apply drop_app_length. Qed.

(** X4. [test_parse] commits nothing on any path, and the last call it
    makes is the write of the old path: the candidate is never what a
    commit would make durable through this route. *)
Theorem test_parse_never_commits (arg_mecab_path : option string) (w : World) :
  let w' := snd (test_parse arg_mecab_path w) in
  committed w' = committed w
  /\ commit_count (new_calls w w') = 0
  /\ last (new_calls w w')
     = Some (CSetValue "mecab_path" (get_setting (settings w) "mecab_path")).
Proof.
  cbv zeta. unfold test_parse. step. unfold UserSetting_set_value.
  repeat case_call;
    (split; [reflexivity |]);
    (erewrite calls_added; [| simpl; rewrite <- !app_assoc; reflexivity]);
    split; reflexivity.
Qed.

(** X5. [test_parse] leaves every key but [mecab_path] as it was, and the
    parser registry and its objects too, on every path: also when the
    store refuses a write. *)
Theorem test_parse_touches_only_mecab_path
    (arg_mecab_path : option string) (w : World) (key : string) :
  key <> "mecab_path" ->
  let w' := snd (test_parse arg_mecab_path w) in
  settings w' !! key = settings w !! key
  /\ parser_instances w' = parser_instances w
  /\ heap w' = heap w.
Proof.
  intros Hkey. cbv zeta. unfold test_parse. step.
  unfold UserSetting_set_value.
  repeat case_call; (split; [| split; reflexivity]);
    rewrite ?lookup_insert_ne by congruence; reflexivity.
Qed.

(** X6. When the store refuses the write that puts the old path back,
    [test_parse] raises that exception instead of answering, whatever the
    test parse gave. *)
Theorem test_parse_raises_when_write_back_refused
    (arg_mecab_path : option string) (w : World) (e : Exn) :
  set_value_error "mecab_path" (get_setting (settings w) "mecab_path") = Some e ->
  fst (test_parse arg_mecab_path w) = Raise e.
Proof.
  intros Hback. unfold test_parse. step.
  set (v := match arg_mecab_path with Some s => VStr s | None => VNone end).
  unfold UserSetting_set_value at 1.
  destruct (set_value_error "mecab_path" v) eqn:Hv; simpl;
    repeat case_call;
    rewrite (set_value_refused _ _ _ _ Hback); reflexivity.
Qed.

(** X7. When the store accepts the write, [set_key_value] changes the
    entry of the key and no other, and commits: the committed table is then
    the table the session sees, with the value under the key.  The parser
    registry and its objects are not touched. *)
Theorem set_key_value_commits_the_value (key value : string) (w : World) :
  set_value_error key (VStr value) = None ->
  let w' := snd (set_key_value key value w) in
  settings w' = <[key := VStr value]> (settings w)
  /\ committed w' = <[key := VStr value]> (settings w)
  /\ (forall key', key' <> key -> settings w' !! key' = settings w !! key')
  /\ parser_instances w' = parser_instances w
  /\ heap w' = heap w.
Proof.
  intros Hok. cbv zeta. unfold set_key_value. step.
  rewrite (set_value_accepted _ _ _ Hok). simpl.
  repeat split. intros key' Hne. by rewrite lookup_insert_ne.
Qed.

(** X8. When the store refuses the write of [set_key_value] and the write
    of the old value too, the route raises the exception of the second
    write instead of answering, and commits nothing. *)
Theorem set_key_value_raises_when_write_back_refused
    (key value : string) (w : World) (e e' : Exn) :
  set_value_error key (VStr value) = Some e ->
  set_value_error key (get_setting (settings w) key) = Some e' ->
  let w' := snd (set_key_value key value w) in
  fst (set_key_value key value w) = Raise e'
  /\ new_calls w w'
     = [CSetValue key (VStr value);
        CSetValue key (get_setting (settings w) key)]
  /\ committed w' = committed w.
Proof.
  intros Hfail Hback. cbv zeta. unfold set_key_value. step.
  rewrite (set_value_refused _ _ _ _ Hfail).
  destruct (set_value_staged_on_error key (VStr value)); simpl;
    rewrite (set_value_refused _ _ _ _ Hback); simpl;
    (split; [reflexivity |]);
    (split; [| by destruct (set_value_staged_on_error key _)]);
    apply calls_added;
    destruct (set_value_staged_on_error key (get_setting (settings w) key));
    simpl; by rewrite <- !app_assoc.
Qed.

(** ** The switch of the parser *)

Ltac registry_step :=
  unfold parser_instances_getitem, get_parser, call_switch_tagger in *;
  simpl in *.

(** X9. [set_parser] never writes a setting and never commits: the
    settings table, the committed table and so the [unidic_types] setting
    its guard reads are the same after it, on every path; the calls it
    makes are constructions and switches of parsers only. *)
Theorem set_parser_leaves_settings (unidic_type : string) (w : World) :
  let w' := snd (set_parser unidic_type w) in
  settings w' = settings w
  /\ committed w' = committed w
  /\ exists cs, calls w' = (calls w ++ cs)%list
               /\ forallb is_parser_call cs = true.
Proof.
  cbv zeta. unfold set_parser. step.
  destruct (decide (VStr unidic_type = get_setting (settings w) "unidic_types"));
    simpl.
  { split; [reflexivity | split; [reflexivity |]].
    exists []. by rewrite app_nil_r. }
  registry_step.
  destruct (parser_instances w !! "japanese") as [[l|]|] eqn:Hreg; simpl.
  - rewrite Hreg. simpl.
    destruct (heap w !! l) as [p|]; simpl;
      [destruct (switch_tagger p unidic_type); simpl |];
      (split; [reflexivity | split; [reflexivity |]]);
      by exists [CSwitchTagger l unidic_type].
  - rewrite ?Hreg. simpl.
    destruct (new_parser "japanese" (settings w)) as [e|p]; simpl.
    + split; [reflexivity | split; [reflexivity |]].
      by exists [CNewParser "japanese"].
    + rewrite lookup_insert_eq. simpl.
      rewrite list_lookup_middle by reflexivity. simpl.
      destruct (switch_tagger p unidic_type); simpl;
        (split; [reflexivity | split; [reflexivity |]]);
        exists [CNewParser "japanese";
                CSwitchTagger (length (heap w)) unidic_type];
        by rewrite <- !app_assoc.
  - split; [reflexivity | split; [reflexivity |]].
    exists []. by rewrite app_nil_r.
Qed.

(** X10. Past its guard, [set_parser] looks the Japanese parser up in the
    registry: when the registry has no entry of that name the route raises
    a [KeyError] and has changed nothing. *)
Theorem set_parser_missing_entry (unidic_type : string) (w : World) :
  get_setting (settings w) "unidic_types" <> VStr unidic_type ->
  parser_instances w !! "japanese" = None ->
  set_parser unidic_type w = (Raise (mkExn "KeyError" "'japanese'"), w).
Proof.
  intros Hne Hreg. unfold set_parser. step.
  rewrite decide_False by congruence. registry_step. by rewrite Hreg.
Qed.

(** X11. When the construction of the parser fails, [set_parser] raises
    the exception of the constructor; no switch is attempted, and the
    registry still holds no instance, so that a later request constructs
    again. *)
Theorem set_parser_construction_fails
    (unidic_type : string) (w : World) (e : Exn) :
  get_setting (settings w) "unidic_types" <> VStr unidic_type ->
  parser_instances w !! "japanese" = Some None ->
  new_parser "japanese" (settings w) = inl e ->
  let w' := snd (set_parser unidic_type w) in
  fst (set_parser unidic_type w) = Raise e
  /\ new_calls w w' = [CNewParser "japanese"]
  /\ parser_instances w' = parser_instances w
  /\ heap w' = heap w.
Proof.
  intros Hne Hreg Hnew. cbv zeta. unfold set_parser. step.
  rewrite decide_False by congruence. registry_step.
  rewrite Hreg. simpl. rewrite Hreg, Hnew. simpl.
  repeat split. by apply calls_added.
Qed.

(** X12. When [switch_tagger] raises on the instance the registry holds,
    [set_parser] raises that exception and the instance is as it was: the
    same object, in the state it had. *)
Theorem set_parser_switch_fails
    (unidic_type : string) (w : World) (l : nat) (p : ParserInstance) (e : Exn) :
  get_setting (settings w) "unidic_types" <> VStr unidic_type ->
  parser_instances w !! "japanese" = Some (Some l) ->
  heap w !! l = Some p ->
  switch_tagger p unidic_type = inl e ->
  let w' := snd (set_parser unidic_type w) in
  fst (set_parser unidic_type w) = Raise e
  /\ parser_instances w' = parser_instances w
  /\ heap w' = heap w.
Proof.
  intros Hne Hreg Hp Hsw. cbv zeta. unfold set_parser. step.
  rewrite decide_False by congruence. registry_step.
  rewrite Hreg. simpl. rewrite Hreg. simpl. by rewrite Hp, Hsw.
Qed.

(** X13. Two requests in a row construct one parser: from a registry with
    no instance, a first request that constructs and switches is followed
    by a second that switches the same object; the registry names that
    object after both, and the answer of the second is its variant when
    its switch succeeds. *)
Theorem set_parser_twice_constructs_once
    (u1 u2 : string) (w : World) (p p1 : ParserInstance) :
  get_setting (settings w) "unidic_types" <> VStr u1 ->
  get_setting (settings w) "unidic_types" <> VStr u2 ->
  parser_instances w !! "japanese" = Some None ->
  new_parser "japanese" (settings w) = inr p ->
  switch_tagger p u1 = inr p1 ->
  let r := (set_parser u1 ;; set_parser u2) w in
  new_calls w (snd r)
  = [CNewParser "japanese";
     CSwitchTagger (length (heap w)) u1;
     CSwitchTagger (length (heap w)) u2]
  /\ parser_instances (snd r) !! "japanese" = Some (Some (length (heap w)))
  /\ heap (snd r) = (heap w ++ [switched p1 u2])%list
  /\ (forall p2, switch_tagger p1 u2 = inr p2 -> fst r = Ret (Text u2)).
Proof.
  intros Hne1 Hne2 Hreg Hnew Hsw. cbv zeta. unfold set_parser, switched. step.
  rewrite decide_False by congruence. registry_step.
  rewrite Hreg. simpl. rewrite Hreg, Hnew. simpl.
  rewrite lookup_insert_eq. simpl.
  rewrite list_lookup_middle by reflexivity. simpl. rewrite Hsw. simpl.
  rewrite decide_False by congruence. simpl.
  rewrite lookup_insert_eq. simpl. rewrite lookup_insert_eq. simpl.
  assert (Hins : <[length (heap w) := p1]> (heap w ++ [p])%list
                 = (heap w ++ [p1])%list).
  { pose proof (insert_app_r (heap w) [p] 0 p1) as Hi.
    by rewrite Nat.add_0_r in Hi. }
  rewrite Hins. rewrite list_lookup_middle by reflexivity. simpl.
  destruct (switch_tagger p1 u2) as [e|p2]; simpl.
  - split; [apply calls_added; simpl; by rewrite <- !app_assoc |].
    split; [apply lookup_insert_eq |]. split; [reflexivity | discriminate].
  - split; [apply calls_added; simpl; by rewrite <- !app_assoc |].
    split; [apply lookup_insert_eq |]. split; [| reflexivity].
    pose proof (insert_app_r (heap w) [p1] 0 p2) as Hi.
    by rewrite Nat.add_0_r in Hi.
Qed.

(** [set_parser] keeps the registry sound: when every address the
    registry holds is that of an object on the heap, the same is true after
    the route, on every path. *)
Lemma set_parser_keeps_registry_wf (unidic_type : string) (w : World) :
  registry_wf w -> registry_wf (snd (set_parser unidic_type w)).
Proof.
  intros Hwf. unfold set_parser. step.
  destruct (decide (VStr unidic_type = get_setting (settings w) "unidic_types"));
    simpl; [exact Hwf |].
  registry_step.
  destruct (parser_instances w !! "japanese") as [[l|]|] eqn:Hreg; simpl;
    [| | exact Hwf].
  - rewrite Hreg. simpl.
    destruct (heap w !! l) as [p|]; simpl; [| exact Hwf].
    destruct (switch_tagger p unidic_type); simpl; [exact Hwf |].
    intros name l' Hl'.
    cbn [parser_instances heap with_heap with_parser_instances log] in *. rewrite length_insert. by eapply Hwf.
  - rewrite ?Hreg. simpl.
    assert (Hgrown : forall h : list ParserInstance,
              length h = S (length (heap w)) ->
              forall name l',
                <["japanese" := Some (length (heap w))]> (parser_instances w)
                  !! name = Some (Some l') ->
                l' < length h).
    { intros h Hh name l' Hl'.
      destruct (decide (name = "japanese")) as [->|Hname].
      - rewrite lookup_insert_eq in Hl'. injection Hl' as <-. lia.
      - rewrite lookup_insert_ne in Hl' by congruence.
        apply Hwf in Hl'. lia. }
    destruct (new_parser "japanese" (settings w)) as [e|p]; simpl;
      [exact Hwf |].
    rewrite lookup_insert_eq. simpl.
    rewrite list_lookup_middle by reflexivity. simpl.
    destruct (switch_tagger p unidic_type); simpl; intros name l' Hl';
      cbn [parser_instances heap with_heap with_parser_instances log] in *;
      (eapply Hgrown; [| exact Hl']);
      rewrite ?length_insert, length_app; simpl; lia.
Qed.

(** ** The settings page *)

Lemma edit_settings_unroll (req : Request) :
  edit_settings req = edit_settings_unrolled req.
Proof. reflexivity. Qed.

(** One turn of the loading loop: the world is read only, and the field
    comes out as the page shows it, or the conversion of its flag raises. *)
Lemma load_field_turn (field : Field) (w : World) :
  snd (load_field field w) = w
  /\ match fst (load_field field w) with
     | Ret field' => shown_as (settings w) field field'
     | Raise e =>
         kind field = BooleanField
         /\ py_int (py_or (shown_value (settings w) field) (VInt 0)) = Raise e
     end.
Proof.
  unfold shown_as, shown_value, load_field. step.
  destruct (String.eqb (id field) "csrf_token"); simpl;
    destruct (decide (kind field = BooleanField)) as [Hk|Hk]; simpl;
    try (destruct (py_int _) as [z|e] eqn:Hint; simpl);
    split_and!; try reflexivity; try assumption; try (intros; congruence);
    try (intros _; exists z; by split).
Qed.

Lemma load_loop_world (form : list Field) (w : World) :
  snd (for_each_update form load_field w) = w.
Proof.
  induction form as [|field form IH]; [reflexivity |].
  cbn [for_each_update]. unfold mbind at 1, M_bind at 1, bind at 1.
  pose proof (load_field_turn field w) as [Hw _].
  destruct (load_field field w) as [[field'|e] w1]; simpl in Hw; subst w1;
    [| reflexivity].
  unfold mbind at 1, M_bind at 1, bind at 1.
  destruct (for_each_update form load_field w) as [[rest|e] w2];
    simpl in IH; subst w2; reflexivity.
Qed.

Lemma load_loop_shows (form : list Field) (w : World) :
  (forall field, field ∈ form -> kind field = BooleanField ->
     exists z, py_int (py_or (shown_value (settings w) field) (VInt 0)) = Ret z) ->
  exists form',
    fst (for_each_update form load_field w) = Ret form'
    /\ Forall2 (shown_as (settings w)) form form'.
Proof.
  induction form as [|field form IH]; intros Hconv.
  - exists []. split; [reflexivity | constructor].
  - cbn [for_each_update]. unfold mbind at 1, M_bind at 1, bind at 1.
    pose proof (load_field_turn field w) as [Hw Hturn].
    destruct (load_field field w) as [[field'|e] w1]; simpl in Hw, Hturn;
      subst w1.
    + destruct IH as (rest & Hrest & Hshown).
      { intros f Hin. apply Hconv. by right. }
      unfold mbind at 1, M_bind at 1, bind at 1.
      pose proof (load_loop_world form w) as Hw.
      destruct (for_each_update form load_field w) as [r w2]; simpl in *.
      subst w2 r. exists (field' :: rest).
      split; [reflexivity | by constructor].
    + destruct Hturn as [Hk Hint].
      destruct (Hconv field ltac:(by left) Hk) as [z Hz]. congruence.
Qed.

Lemma load_loop_raises (form : list Field) (w : World) :
  (exists field e, field ∈ form /\ kind field = BooleanField
     /\ py_int (py_or (shown_value (settings w) field) (VInt 0)) = Raise e) ->
  exists field e,
    field ∈ form /\ kind field = BooleanField
    /\ py_int (py_or (shown_value (settings w) field) (VInt 0)) = Raise e
    /\ fst (for_each_update form load_field w) = Raise e.
Proof.
  induction form as [|field form IH]; intros (f & e & Hin & Hk & Hint).
  - by apply elem_of_nil in Hin.
  - cbn [for_each_update]. unfold mbind at 1, M_bind at 1, bind at 1.
    pose proof (load_field_turn field w) as [Hw Hturn].
    destruct (load_field field w) as [[field'|e0] w1]; simpl in Hw, Hturn;
      subst w1.
    + apply elem_of_cons in Hin as [->|Hin].
      { destruct Hturn as (_ & _ & _ & _ & Hb).
        destruct (Hb Hk) as (z & Hz & _). congruence. }
      destruct IH as (f1 & e1 & Hin1 & Hk1 & Hint1 & Hraise);
        [by exists f, e |].
      exists f1, e1. split; [by right |]. split; [exact Hk1 |].
      split; [exact Hint1 |].
      unfold mbind at 1, M_bind at 1, bind at 1.
      destruct (for_each_update form load_field w) as [r w2]; simpl in *.
      by subst r.
    + destruct Hturn as [Hk0 Hint0]. exists field, e0.
      split; [by left |]. by repeat split.
Qed.

(** X14. A request that is not a valid submission changes nothing:
    [edit_settings] then only reads, and the settings, the committed table,
    the registry and the call log are as before, whether the page renders
    or not. *)
Theorem edit_settings_page_reads_only (req : Request) (w : World) :
  validate_on_submit req (edit_settings_form req) = false ->
  snd (edit_settings req w) = w.
Proof.
  intros Hvalid. rewrite edit_settings_unroll. unfold edit_settings_unrolled.
  rewrite Hvalid.
  unfold mbind at 1, M_bind at 1, bind at 1.
  pose proof (load_loop_world (edit_settings_form req) w) as Hw.
  destruct (for_each_update (edit_settings_form req) load_field w)
    as [[form'|e] w1]; simpl in Hw; by subst w1.
Qed.

(** X15. When the page is rendered, each field is shown with the stored
    value of its key (the registered default when none is stored), the
    CSRF token with its own data, and each boolean field with that value as
    an [int], 0 for a falsy one; names, kinds, order and rendering
    attributes are those of the form.  The page renders when the value of
    every boolean field converts. *)
Theorem edit_settings_page_shows_settings (req : Request) (w : World) :
  validate_on_submit req (edit_settings_form req) = false ->
  (forall field, field ∈ edit_settings_form req -> kind field = BooleanField ->
     exists z, py_int (py_or (shown_value (settings w) field) (VInt 0)) = Ret z) ->
  exists form',
    fst (edit_settings req w) = Ret (Render "settings/form.html" form')
    /\ Forall2 (shown_as (settings w)) (edit_settings_form req) form'.
Proof.
  intros Hvalid Hconv. rewrite edit_settings_unroll. unfold edit_settings_unrolled.
  rewrite Hvalid.
  destruct (load_loop_shows _ w Hconv) as (form' & Hform & Hshown).
  exists form'. split; [| exact Hshown].
  unfold mbind at 1, M_bind at 1, bind at 1.
  destruct (for_each_update (edit_settings_form req) load_field w) as [r w1].
  simpl in Hform. by subst r.
Qed.

(** X16. When the stored value of a boolean field does not convert to an
    [int] (a word, say), the page is not rendered: [edit_settings] raises
    the exception of the conversion of such a field. *)
Theorem edit_settings_page_raises_on_bad_flag (req : Request) (w : World) :
  validate_on_submit req (edit_settings_form req) = false ->
  (exists field e, field ∈ edit_settings_form req /\ kind field = BooleanField
     /\ py_int (py_or (shown_value (settings w) field) (VInt 0)) = Raise e) ->
  exists field e,
    field ∈ edit_settings_form req /\ kind field = BooleanField
    /\ py_int (py_or (shown_value (settings w) field) (VInt 0)) = Raise e
    /\ fst (edit_settings req w) = Raise e.
Proof.
  intros Hvalid Hbad. rewrite edit_settings_unroll. unfold edit_settings_unrolled.
  rewrite Hvalid.
  destruct (load_loop_raises _ w Hbad) as (f & e & Hin & Hk & Hint & Hraise).
  exists f, e. repeat (split; [assumption |]).
  unfold mbind at 1, M_bind at 1, bind at 1.
  destruct (for_each_update (edit_settings_form req) load_field w) as [r w1].
  simpl in Hraise. by subst r.
Qed.

(** ** Saving the form *)

Lemma commit_count_writes (cs : list Call) :
  forallb is_set_value cs = true -> commit_count cs = 0.
Proof.
  unfold commit_count. induction cs as [|c cs IH]; [reflexivity |].
  simpl. intros [Hc Hcs]%andb_prop.
  rewrite filter_cons. destruct c; try discriminate.
  rewrite decide_False by discriminate. by apply IH.
Qed.

(** One turn of the saving loop: a write at most. *)
Lemma save_field_turn (field : Field) (w : World) :
  committed (snd (save_field field w)) = committed w
  /\ parser_instances (snd (save_field field w)) = parser_instances w
  /\ heap (snd (save_field field w)) = heap w
  /\ exists cs, calls (snd (save_field field w)) = (calls w ++ cs)%list
               /\ forallb is_set_value cs = true.
Proof.
  unfold save_field, UserSetting_set_value. step.
  destruct (negb _); simpl; repeat case_call; split_and!; try reflexivity;
    try (by exists [CSetValue (id field) (data field)]);
    exists []; by rewrite app_nil_r.
Qed.

(** The saving loop only writes, whether it ends or raises. *)
Lemma save_loop_frame (form : list Field) (w : World) :
  committed (snd (for_each form save_field w)) = committed w
  /\ parser_instances (snd (for_each form save_field w)) = parser_instances w
  /\ heap (snd (for_each form save_field w)) = heap w
  /\ exists cs, calls (snd (for_each form save_field w)) = (calls w ++ cs)%list
               /\ forallb is_set_value cs = true.
Proof.
  revert w. induction form as [|field form IH]; intros w.
  - simpl. split_and!; try reflexivity. exists []. by rewrite app_nil_r.
  - cbn [for_each]. unfold mbind, M_bind, bind.
    pose proof (save_field_turn field w) as (Hc & Hr & Hh & cs & Hcs & Hall).
    destruct (save_field field w) as [[[]|e] w1]; cbn [fst snd] in *.
    + destruct (IH w1) as (Hc' & Hr' & Hh' & cs' & Hcs' & Hall').
      split; [congruence |]. split; [congruence |]. split; [congruence |].
      exists (cs ++ cs')%list. split.
      * rewrite Hcs', Hcs. by rewrite <- app_assoc.
      * rewrite forallb_app. by rewrite Hall, Hall'.
    + split; [assumption |]. split; [assumption |]. split; [assumption |].
      by exists cs.
Qed.

Lemma save_loop_refused (form : list Field) (w : World) :
  (exists field, field ∈ form /\ id field <> "csrf_token"
     /\ id field <> "submit"
     /\ set_value_error (id field) (data field) <> None) ->
  exists e, fst (for_each form save_field w) = Raise e.
Proof.
  revert w. induction form as [|field form IH];
    intros w (f & Hin & Hc & Hs & Hrefused).
  - by apply elem_of_nil in Hin.
  - cbn [for_each]. unfold mbind, M_bind, bind.
    destruct (save_field field w) as [[[]|e] w1] eqn:Hturn; simpl;
      [| by exists e].
    apply elem_of_cons in Hin as [->|Hin]; [| apply IH; by exists f].
    exfalso. unfold save_field, UserSetting_set_value in Hturn.
    apply String.eqb_neq in Hc, Hs. rewrite Hc, Hs in Hturn. simpl in Hturn.
    destruct (set_value_error (id field) (data field)); [discriminate | done].
Qed.

Lemma settings_key_field (req : Request) (name : string) :
  name ∈ settings_keys ->
  exists field, field ∈ edit_settings_form req /\ id field = name
    /\ data field = formdata req name
    /\ name <> "csrf_token" /\ name <> "submit".
Proof.
  intros Hin. unfold settings_keys in Hin.
  apply list_elem_of_filter in Hin as [Hc Hin].
  assert (Hs : name <> "submit").
  { intros ->. apply list_elem_of_In in Hin. simpl in Hin.
    intuition discriminate. }
  rewrite <- (edit_settings_form_ids req) in Hin.
  apply list_elem_of_fmap in Hin as (f & -> & Hf).
  exists f. split_and!; try done. by apply edit_settings_form_data.
Qed.

(** X17. A valid submission one of whose writes the store refuses is not
    committed: [edit_settings] raises, the calls it has made are writes
    only (no commit, no message to the user), and the committed table is as
    before. *)
Theorem edit_settings_refused_write_commits_nothing (req : Request) (w : World) :
  validate_on_submit req (edit_settings_form req) = true ->
  (exists name, name ∈ settings_keys
     /\ set_value_error name (formdata req name) <> None) ->
  let w' := snd (edit_settings req w) in
  (exists e, fst (edit_settings req w) = Raise e)
  /\ committed w' = committed w
  /\ forallb is_set_value (new_calls w w') = true
  /\ commit_count (new_calls w w') = 0.
Proof.
  intros Hvalid (name & Hname & Hrefused). cbv zeta.
  rewrite edit_settings_unroll. unfold edit_settings_unrolled.
  rewrite Hvalid.
  destruct (settings_key_field req name Hname) as (f & Hf & <- & Hd & Hc & Hs).
  rewrite <- Hd in Hrefused.
  destruct (save_loop_refused (edit_settings_form req) w) as [e He];
    [by exists f |].
  pose proof (save_loop_frame (edit_settings_form req) w)
    as (Hcom & _ & _ & cs & Hcs & Hall).
  unfold mbind, M_bind, bind.
  destruct (for_each (edit_settings_form req) save_field w) as [r w1].
  cbn [fst snd] in *. subst r. cbn [fst snd].
  rewrite (calls_added _ _ _ Hcs).
  split_and!; [by exists e | done | done | by apply commit_count_writes].
Qed.

(** X18. No path of [edit_settings] touches the parser registry or its
    objects. *)
Theorem edit_settings_leaves_registry (req : Request) (w : World) :
  parser_instances (snd (edit_settings req w)) = parser_instances w
  /\ heap (snd (edit_settings req w)) = heap w.
Proof.
  rewrite edit_settings_unroll. unfold edit_settings_unrolled.
  destruct (validate_on_submit req (edit_settings_form req)).
  - pose proof (save_loop_frame (edit_settings_form req) w)
      as (_ & Hr & Hh & _).
    unfold mbind, M_bind, bind.
    destruct (for_each (edit_settings_form req) save_field w) as [[[]|e] w1];
      simpl in *; by split.
  - unfold mbind, M_bind, bind.
    pose proof (load_loop_world (edit_settings_form req) w) as Hw.
    destruct (for_each_update (edit_settings_form req) load_field w)
      as [[form'|e] w1]; simpl in Hw; by subst w1.
Qed.

(** ** Validation and the docker flag *)

Lemma form_data_edit_settings_form (req : Request) (name : string) :
  name ∈ settings_keys ->
  form_data (edit_settings_form req) name = formdata req name.
Proof.
  intros Hin. apply list_elem_of_In in Hin. simpl in Hin.
  unfold edit_settings_form.
  destruct (is_docker req);
    repeat (destruct Hin as [<-|Hin]; [reflexivity |]); destruct Hin.
Qed.

Lemma validate_on_submit_backup_dir (req : Request) (form : list Field) :
  validate_on_submit req form = true ->
  forall field, field ∈ form -> id field = "backup_dir" ->
                validate_backup_dir form field = Ret tt.
Proof.
  unfold validate_on_submit. intros [_ Hall]%andb_prop field Hin Hid.
  rewrite forallb_forall in Hall. apply list_elem_of_In in Hin.
  specialize (Hall field Hin). rewrite Hid in Hall. simpl in Hall.
  by destruct (validate_backup_dir form field) as [[]|].
Qed.

(** X19. A submitted form whose backup directory the validator refuses is
    not saved: unless the backup flag is the boolean [False], a directory
    that is blank, is not its own absolute form, does not exist or is not
    a directory makes the submission invalid, and [edit_settings] then
    changes nothing. *)
Theorem edit_settings_invalid_backup_dir_not_saved
    (req : Request) (w : World) (v : string) :
  formdata req "backup_enabled" <> VBool false ->
  formdata req "backup_dir" = VStr v ->
  ~ (py_strip v <> "" /\ os_path_abspath v = v
     /\ os_path_exists v = true /\ os_path_isdir v = true) ->
  validate_on_submit req (edit_settings_form req) = false
  /\ snd (edit_settings req w) = w.
Proof.
  intros Hen Hv Hbad.
  assert (Hkeys : "backup_enabled" ∈ settings_keys /\ "backup_dir" ∈ settings_keys).
  { split; apply list_elem_of_In; vm_compute; tauto. }
  destruct Hkeys as [Hk1 Hk2].
  assert (Hinvalid : validate_on_submit req (edit_settings_form req) = false).
  { destruct (validate_on_submit req (edit_settings_form req)) eqn:Hvalid;
      [| reflexivity].
    exfalso. apply Hbad.
    destruct (settings_key_field req "backup_dir" Hk2)
      as (f & Hf & Hid & Hd & _).
    apply (validate_backup_dir_accepted (edit_settings_form req) f v).
    - by rewrite (form_data_edit_settings_form req _ Hk1).
    - by rewrite Hd.
    - by apply (validate_on_submit_backup_dir req). }
  split; [exact Hinvalid |].
  rewrite edit_settings_unroll. unfold edit_settings_unrolled.
  rewrite Hinvalid. unfold mbind, M_bind, bind.
  pose proof (load_loop_world (edit_settings_form req) w) as Hw.
  destruct (for_each_update (edit_settings_form req) load_field w)
    as [[form'|e] w1]; simpl in Hw; by subst w1.
Qed.

Section SameContent.
Variable g : Field -> Field.
Hypothesis g_id : forall f, id (g f) = id f.
Hypothesis g_data : forall f, data (g f) = data f.

Lemma form_data_map (form : list Field) (name : string) :
  form_data (map g form) name = form_data form name.
Proof.
  unfold form_data. induction form as [|f form IH]; [reflexivity |].
  simpl. rewrite g_id. destruct (String.eqb (id f) name); [apply g_data | exact IH].
Qed.

Lemma validate_backup_dir_map (self : list Field) (f : Field) :
  validate_backup_dir (map g self) (g f) = validate_backup_dir self f.
Proof. unfold validate_backup_dir. by rewrite form_data_map, g_data. Qed.

Lemma validate_on_submit_map (req : Request) (form : list Field) :
  validate_on_submit req (map g form) = validate_on_submit req form.
Proof.
  unfold validate_on_submit. f_equal.
  generalize form at 1 3 as self. intros self.
  induction form as [|f form IH]; [reflexivity |].
  simpl. by rewrite g_id, validate_backup_dir_map, IH.
Qed.

Lemma save_field_map (f : Field) : save_field (g f) = save_field f.
Proof. unfold save_field. by rewrite g_id, g_data. Qed.

Lemma save_loop_map (form : list Field) (w : World) :
  for_each (map g form) save_field w = for_each form save_field w.
Proof.
  revert w. induction form as [|f form IH]; intros w; [reflexivity |].
  simpl. rewrite save_field_map. unfold mbind, M_bind, bind.
  destruct (save_field f w) as [[[]|e] w1]; [apply IH | reflexivity].
Qed.

End SameContent.

(** The form of a request and the bound form have the same content. *)
Lemma edit_settings_form_content (req : Request) :
  exists g : Field -> Field,
    (forall f, id (g f) = id f) /\ (forall f, data (g f) = data f)
    /\ edit_settings_form req = map g (UserSettingsForm (formdata req)).
Proof.
  unfold edit_settings_form. destruct (is_docker req).
  - exists (fun f =>
              if String.eqb (id f) "backup_dir"
              then set_render_kw [("readonly", VBool true);
                                  ("style", VStr "background-color: LightGray")]
                                 f
              else f).
    split_and!; [| | reflexivity]; intros f; simpl;
      by destruct (String.eqb (id f) "backup_dir").
  - exists (fun f => f). split_and!; try done;
      try (symmetry; apply map_id).
Qed.

(** What [edit_settings] does to the world, and answers on a valid
    submission, in terms of the bound form alone. *)
Lemma edit_settings_by_content (req : Request) (w : World) :
  validate_on_submit req (edit_settings_form req)
  = validate_on_submit req (UserSettingsForm (formdata req))
  /\ (validate_on_submit req (edit_settings_form req) = true ->
      edit_settings req w
      = (for_each (UserSettingsForm (formdata req)) save_field ;;
         db_session_commit ;;
         flash "Settings updated" "success" ;;
         mret (RedirectTo "/")) w)
  /\ (validate_on_submit req (edit_settings_form req) = false ->
      snd (edit_settings req w) = w).
Proof.
  destruct (edit_settings_form_content req) as (g & Hid & Hdata & Hform).
  split_and!.
  - rewrite Hform. by apply validate_on_submit_map.
  - intros Hvalid. rewrite edit_settings_unroll. unfold edit_settings_unrolled.
    rewrite Hvalid, Hform. unfold mbind, M_bind, bind.
    by rewrite (save_loop_map g Hid Hdata).
  - intros Hvalid. rewrite edit_settings_unroll. unfold edit_settings_unrolled.
    rewrite Hvalid. unfold mbind, M_bind, bind.
    pose proof (load_loop_world (edit_settings_form req) w) as Hw.
    destruct (for_each_update (edit_settings_form req) load_field w)
      as [[form'|e] w1]; simpl in Hw; by subst w1.
Qed.

(** X20. The docker flag changes the rendering only: a request is a valid
    submission with the flag exactly when it is one without, what
    [edit_settings] does to the settings, the committed table and the call
    log is the same, and so is its answer to a valid submission.  The
    backup directory of a submitted form is written under docker too. *)
Theorem edit_settings_docker_changes_rendering_only
    (req : Request) (w : World) (b : bool) :
  validate_on_submit (with_docker b req) (edit_settings_form (with_docker b req))
  = validate_on_submit req (edit_settings_form req)
  /\ snd (edit_settings (with_docker b req) w) = snd (edit_settings req w)
  /\ (validate_on_submit req (edit_settings_form req) = true ->
      fst (edit_settings (with_docker b req) w) = fst (edit_settings req w)).
Proof.
  destruct (edit_settings_by_content req w) as (Hv & Hpost & Hpage).
  destruct (edit_settings_by_content (with_docker b req) w)
    as (Hv' & Hpost' & Hpage').
  assert (Hsame : validate_on_submit (with_docker b req)
                    (edit_settings_form (with_docker b req))
                  = validate_on_submit req (edit_settings_form req))
    by (rewrite Hv, Hv'; reflexivity).
  split; [exact Hsame |].
  destruct (validate_on_submit req (edit_settings_form req)) eqn:Hvalid.
  - rewrite (Hpost eq_refl), (Hpost' Hsame). by split.
  - rewrite (Hpage eq_refl), (Hpage' Hsame). by split.
Qed.

End FurtherProperties.

(** * The further properties at work on the concrete platform *)

Lemma validate_backup_dir_accepts_iff_witness :
  @validate_backup_dir Demo.platform (Demo.form_with true "/backups")
    (mkField "backup_dir" StringField (VStr "/backups") []) = Ret tt.
Proof.
  apply (@validate_backup_dir_accepts_iff Demo.platform
           (Demo.form_with true "/backups")
           (mkField "backup_dir" StringField (VStr "/backups") [])
           "/backups");
    [vm_compute; discriminate | reflexivity |].
  vm_compute. repeat split. discriminate.
Defined.

Lemma validate_backup_dir_blank_required_witness :
  @validate_backup_dir Demo.platform (Demo.form_with true "   ")
    (mkField "backup_dir" StringField (VStr "   ") [])
  = Raise (ValidationError "Backup directory required").
Proof.
  apply (@validate_backup_dir_blank_required Demo.platform).
  - vm_compute. discriminate.
  - right. exists "   ". split; reflexivity.
Defined.

Lemma validate_backup_dir_proposes_abspath_witness :
  @validate_backup_dir Demo.platform (Demo.form_with true "backups")
    (mkField "backup_dir" StringField (VStr "backups") [])
  = Raise (ValidationError
             ("Backup dir must be absolute path.  Did you mean "
              ++ dquote ++ "/lute/backups" ++ dquote ++ "?")).
Proof.
  apply (@validate_backup_dir_proposes_abspath Demo.platform
           (Demo.form_with true "backups")
           (mkField "backup_dir" StringField (VStr "backups") []) "backups");
    [vm_compute; discriminate | reflexivity
     | vm_compute; discriminate | vm_compute; discriminate].
Defined.

Lemma test_parse_touches_only_mecab_path_witness :
  settings (snd (@test_parse Demo.locked_platform (Some "/bad/path")
                   Demo.world0)) !! "unidic_types"
  = Some (VStr "spoken").
Proof.
  destruct (@test_parse_touches_only_mecab_path Demo.locked_platform
              (Some "/bad/path") Demo.world0 "unidic_types")
    as (Hkey & _); [discriminate |].
  rewrite Hkey. vm_compute. reflexivity.
Defined.

Lemma test_parse_raises_when_write_back_refused_witness :
  fst (@test_parse Demo.locked_platform (Some "/usr/local/bin/mecab")
         Demo.world0)
  = Raise (mkExn "MissingUserSettingKeyException" "mecab_path").
Proof.
  apply (@test_parse_raises_when_write_back_refused Demo.locked_platform).
  vm_compute. reflexivity.
Defined.

Lemma set_key_value_commits_the_value_witness :
  committed (snd (@set_key_value Demo.platform "mecab_path"
                    "/usr/local/bin/mecab" Demo.world0)) !! "mecab_path"
  = Some (VStr "/usr/local/bin/mecab").
Proof.
  destruct (@set_key_value_commits_the_value Demo.platform "mecab_path"
              "/usr/local/bin/mecab" Demo.world0)
    as (_ & Hcommitted & _); [vm_compute; reflexivity |].
  rewrite Hcommitted. apply lookup_insert_eq.
Defined.

Lemma set_key_value_raises_when_write_back_refused_witness :
  fst (@set_key_value Demo.locked_platform "mecab_path" "/opt/mecab"
         Demo.world0)
  = Raise (mkExn "MissingUserSettingKeyException" "mecab_path").
Proof.
  apply (@set_key_value_raises_when_write_back_refused Demo.locked_platform
           "mecab_path" "/opt/mecab" Demo.world0
           (mkExn "MissingUserSettingKeyException" "mecab_path"));
    vm_compute; reflexivity.
Defined.

Lemma set_parser_missing_entry_witness :
  @set_parser Demo.platform "writing" Demo.world_no_entry
  = (Raise (mkExn "KeyError" "'japanese'"), Demo.world_no_entry).
Proof.
  apply (@set_parser_missing_entry Demo.platform "writing"
           Demo.world_no_entry);
    [vm_compute; discriminate | vm_compute; reflexivity].
Defined.

Lemma set_parser_construction_fails_witness :
  fst (@set_parser Demo.platform "writing" Demo.world_no_mecab)
  = Raise (mkExn "ParserInitError" "no mecab at ")
  /\ parser_instances (snd (@set_parser Demo.platform "writing"
                              Demo.world_no_mecab))
     = parser_instances Demo.world_no_mecab.
Proof.
  destruct (@set_parser_construction_fails Demo.platform "writing"
              Demo.world_no_mecab (mkExn "ParserInitError" "no mecab at "))
    as (Hanswer & _ & Hregistry & _);
    [vm_compute; discriminate | vm_compute; reflexivity ..
     | by split].
Defined.

Lemma set_parser_switch_fails_witness :
  fst (@set_parser Demo.platform "formal" Demo.world1)
  = Raise (mkExn "VariantSwitchError" "formal")
  /\ heap (snd (@set_parser Demo.platform "formal" Demo.world1))
     = heap Demo.world1.
Proof.
  destruct (@set_parser_switch_fails Demo.platform "formal" Demo.world1 0
              (mkParser (VStr "/usr/bin/mecab") "writing" 1)
              (mkExn "VariantSwitchError" "formal"))
    as (Hanswer & _ & Hheap);
    [vm_compute; discriminate | vm_compute; reflexivity ..
     | by split].
Defined.

Lemma set_parser_twice_constructs_once_witness :
  new_calls Demo.world0
    (snd ((@set_parser Demo.platform "writing" ;;
           @set_parser Demo.platform "writing") Demo.world0))
  = [CNewParser "japanese"; CSwitchTagger 0 "writing";
     CSwitchTagger 0 "writing"].
Proof.
  destruct (@set_parser_twice_constructs_once Demo.platform "writing"
              "writing" Demo.world0
              (mkParser (VStr "/usr/bin/mecab") "spoken" 0)
              (mkParser (VStr "/usr/bin/mecab") "writing" 1))
    as (Hcalls & _);
    [vm_compute; discriminate | vm_compute; discriminate
     | vm_compute; reflexivity .. | exact Hcalls].
Defined.

Lemma edit_settings_page_reads_only_witness :
  snd (@edit_settings Demo.platform Demo.page_request Demo.world_bad_flag)
  = Demo.world_bad_flag.
Proof.
  apply (@edit_settings_page_reads_only Demo.platform). vm_compute.
  reflexivity.
Defined.

Lemma edit_settings_page_shows_settings_witness :
  exists form',
    fst (@edit_settings Demo.platform Demo.page_request Demo.world_flags)
    = Ret (Render "settings/form.html" form')
    /\ Forall2 (@shown_as Demo.platform (settings Demo.world_flags))
         (edit_settings_form Demo.page_request) form'.
Proof.
  apply (@edit_settings_page_shows_settings Demo.platform).
  - vm_compute. reflexivity.
  - intros f Hin Hk. apply list_elem_of_In in Hin. vm_compute in Hin.
    repeat (destruct Hin as [<-|Hin];
            [first [discriminate Hk | eexists; vm_compute; reflexivity] |]).
    destruct Hin.
Defined.

Lemma edit_settings_page_raises_on_bad_flag_witness :
  exists field e,
    field ∈ edit_settings_form Demo.page_request
    /\ kind field = BooleanField
    /\ @py_int Demo.platform
         (py_or (@shown_value Demo.platform (settings Demo.world_bad_flag) field)
                (VInt 0)) = Raise e
    /\ fst (@edit_settings Demo.platform Demo.page_request Demo.world_bad_flag)
       = Raise e.
Proof.
  apply (@edit_settings_page_raises_on_bad_flag Demo.platform).
  - vm_compute. reflexivity.
  - exists (mkField "backup_auto" BooleanField VNone []),
           (mkExn "ValueError" "invalid literal for int(): yes").
    split; [| split; vm_compute; reflexivity].
    apply list_elem_of_In. vm_compute. tauto.
Defined.

Lemma edit_settings_refused_write_commits_nothing_witness :
  (exists e,
      fst (@edit_settings Demo.platform Demo.refused_request Demo.world0)
      = Raise e)
  /\ committed (snd (@edit_settings Demo.platform Demo.refused_request
                       Demo.world0))
     = committed Demo.world0.
Proof.
  destruct (@edit_settings_refused_write_commits_nothing Demo.platform
              Demo.refused_request Demo.world0)
    as (Hraise & Hcommitted & _).
  - vm_compute. reflexivity.
  - exists "backup_count". split; [| vm_compute; discriminate].
    apply list_elem_of_In. vm_compute. tauto.
  - by split.
Defined.

Lemma edit_settings_invalid_backup_dir_not_saved_witness :
  snd (@edit_settings Demo.platform Demo.relative_request Demo.world0)
  = Demo.world0.
Proof.
  apply (@edit_settings_invalid_backup_dir_not_saved Demo.platform
           Demo.relative_request Demo.world0 "backups").
  - vm_compute. discriminate.
  - reflexivity.
  - vm_compute. intros (_ & Habs & _). discriminate Habs.
Defined.

Lemma edit_settings_docker_changes_rendering_only_witness :
  fst (@edit_settings Demo.platform (with_docker true Demo.request) Demo.world0)
  = fst (@edit_settings Demo.platform Demo.request Demo.world0)
  /\ snd (@edit_settings Demo.platform (with_docker true Demo.request)
            Demo.world0)
     = snd (@edit_settings Demo.platform Demo.request Demo.world0).
Proof.
  destruct (@edit_settings_docker_changes_rendering_only Demo.platform
              Demo.request Demo.world0 true)
    as (_ & Hworld & Hanswer).
  split; [| exact Hworld]. apply Hanswer. vm_compute. reflexivity.
Defined.
